(** * gns3/progress.py: the modal progress-dialog controller

    A shallow embedding of class [Progress].  The controller object is a
    record of its attributes; the toolkit objects it talks to (the
    QProgressDialog widgets, the one-shot timers, the network replies) live
    in a small explicit store that is threaded through every method.  A
    method that can raise a Python exception returns [option]: [None] means
    an exception propagated out of the method. *)

From Stdlib Require Import List String ZArith Bool Lia.
Import ListNotations.
Open Scope string_scope.
Open Scope Z_scope.

(** ** Python values and dicts *)

(** A reply object of the network layer, known by reference only. *)
Definition QNetworkReply := nat.

(** The values the per-query dicts hold. *)
Inductive PyVal : Type :=
| PyStr (s : string)
| PyInt (z : Z)
| PyReply (r : QNetworkReply).

(** [x[...]] used where the method needs a str, an int or a reply: a value
    of another type raises there. *)
Definition as_str (v : PyVal) : option string :=
  match v with PyStr s => Some s | _ => None end.

Definition as_int (v : PyVal) : option Z :=
  match v with PyInt z => Some z | _ => None end.

Definition as_reply (v : PyVal) : option QNetworkReply :=
  match v with PyReply r => Some r | _ => None end.

Definition bind {A B : Type} (c : option A) (k : A -> option B) : option B :=
  match c with Some a => k a | None => None end.

Notation "x <- c ;; k" := (bind c (fun x => k))
  (at level 61, c at next level, right associativity).

(** A Python dict with str keys: an association list in insertion order. *)
Module Dict.

Definition t (V : Type) : Type := list (string * V).

(** [d[k]]; [None] is KeyError. *)
Fixpoint get {V : Type} (d : t V) (k : string) : option V :=
  match d with
  | [] => None
  | (k', v) :: d' => if String.eqb k k' then Some v else get d' k
  end.

(** [k in d] *)
Definition contains {V : Type} (d : t V) (k : string) : bool :=
  match get d k with Some _ => true | None => false end.

(** [d[k] = v]: an existing key keeps its place, a new key goes last. *)
Fixpoint set {V : Type} (d : t V) (k : string) (v : V) : t V :=
  match d with
  | [] => [(k, v)]
  | (k', v') :: d' =>
      if String.eqb k k' then (k', v) :: d' else (k', v') :: set d' k v
  end.

(** [del d[k]] *)
Definition del {V : Type} (d : t V) (k : string) : t V :=
  filter (fun kv => negb (String.eqb k (fst kv))) d.

(** [len(d)] *)
Definition len {V : Type} (d : t V) : Z := Z.of_nat (List.length d).

(** [list(d.values())] *)
Definition values {V : Type} (d : t V) : list V := map snd d.

Definition keys {V : Type} (d : t V) : list string := map fst d.

End Dict.

(** ** The toolkit side *)

(** The bound methods that are handed to the toolkit as callbacks. *)
Inductive Slot : Type := Slot_cancelSlot | Slot_show_dialog.

Inductive WindowModality : Type := NonModal | WindowModal | ApplicationModal.

(** A QProgressDialog, as far as the controller drives it: the properties
    hold what the last setter call gave them. *)
Record QProgressDialog : Type := mkDialog {
  labelText : string;
  cancelButton : option string;      (* text of the cancel button, None: no button *)
  minimum : Z;
  maximum : Z;
  value : option Z;                  (* None: setValue was not called yet *)
  windowModality : WindowModality;
  windowTitle : string;
  minimumDuration : Z;
  canceled : list Slot;              (* slots connected to the canceled signal *)
  wasCanceled : bool;
  visible : bool;
  deleted : bool                     (* deleteLater() was called *)
}.

(** [QtWidgets.QProgressDialog(labelText, cancelButtonText, minimum, maximum, parent)] *)
Definition QProgressDialog_new (label : string) (cancel_text : option string)
    (lo hi : Z) : QProgressDialog :=
  mkDialog label cancel_text lo hi None NonModal EmptyString 4000 [] false false false.

Definition connect_canceled (f : Slot) (w : QProgressDialog) : QProgressDialog :=
  mkDialog (labelText w) (cancelButton w) (minimum w) (maximum w) (value w)
    (windowModality w) (windowTitle w) (minimumDuration w)
    (canceled w ++ [f]) (wasCanceled w) (visible w) (deleted w).

Definition setWindowModality (m : WindowModality) (w : QProgressDialog) : QProgressDialog :=
  mkDialog (labelText w) (cancelButton w) (minimum w) (maximum w) (value w)
    m (windowTitle w) (minimumDuration w)
    (canceled w) (wasCanceled w) (visible w) (deleted w).

Definition setWindowTitle (t : string) (w : QProgressDialog) : QProgressDialog :=
  mkDialog (labelText w) (cancelButton w) (minimum w) (maximum w) (value w)
    (windowModality w) t (minimumDuration w)
    (canceled w) (wasCanceled w) (visible w) (deleted w).

Definition setMinimumDuration (ms : Z) (w : QProgressDialog) : QProgressDialog :=
  mkDialog (labelText w) (cancelButton w) (minimum w) (maximum w) (value w)
    (windowModality w) (windowTitle w) ms
    (canceled w) (wasCanceled w) (visible w) (deleted w).

Definition setCancelButtonText (t : string) (w : QProgressDialog) : QProgressDialog :=
  mkDialog (labelText w) (Some t) (minimum w) (maximum w) (value w)
    (windowModality w) (windowTitle w) (minimumDuration w)
    (canceled w) (wasCanceled w) (visible w) (deleted w).

(** [setCancelButton(None)] *)
Definition setCancelButton_None (w : QProgressDialog) : QProgressDialog :=
  mkDialog (labelText w) None (minimum w) (maximum w) (value w)
    (windowModality w) (windowTitle w) (minimumDuration w)
    (canceled w) (wasCanceled w) (visible w) (deleted w).

Definition setMaximum (m : Z) (w : QProgressDialog) : QProgressDialog :=
  mkDialog (labelText w) (cancelButton w) (minimum w) m (value w)
    (windowModality w) (windowTitle w) (minimumDuration w)
    (canceled w) (wasCanceled w) (visible w) (deleted w).

Definition setValue (v : Z) (w : QProgressDialog) : QProgressDialog :=
  mkDialog (labelText w) (cancelButton w) (minimum w) (maximum w) (Some v)
    (windowModality w) (windowTitle w) (minimumDuration w)
    (canceled w) (wasCanceled w) (visible w) (deleted w).

Definition setLabelText (t : string) (w : QProgressDialog) : QProgressDialog :=
  mkDialog t (cancelButton w) (minimum w) (maximum w) (value w)
    (windowModality w) (windowTitle w) (minimumDuration w)
    (canceled w) (wasCanceled w) (visible w) (deleted w).

(** [cancel()]: the dialog is hidden and wasCanceled() answers True. *)
Definition cancel (w : QProgressDialog) : QProgressDialog :=
  mkDialog (labelText w) (cancelButton w) (minimum w) (maximum w) (value w)
    (windowModality w) (windowTitle w) (minimumDuration w)
    (canceled w) true false (deleted w).

Definition deleteLater (w : QProgressDialog) : QProgressDialog :=
  mkDialog (labelText w) (cancelButton w) (minimum w) (maximum w) (value w)
    (windowModality w) (windowTitle w) (minimumDuration w)
    (canceled w) (wasCanceled w) (visible w) true.

(** [show()] followed by [exec_()] *)
Definition show_exec (w : QProgressDialog) : QProgressDialog :=
  mkDialog (labelText w) (cancelButton w) (minimum w) (maximum w) (value w)
    (windowModality w) (windowTitle w) (minimumDuration w)
    (canceled w) (wasCanceled w) true (deleted w).

(** Update of the object behind reference [r]. *)
Fixpoint update_at {A : Type} (l : list A) (r : nat) (f : A -> A) : list A :=
  match l, r with
  | [], _ => []
  | x :: l', O => f x :: l'
  | x :: l', S r' => x :: update_at l' r' f
  end.

(** ** The controller *)

(** The attributes of a [Progress] object, followed by the toolkit objects
    its methods reach: every dialog constructed so far (a dialog reference
    is its index), the pending single shots, and the replies whose abort()
    was called, oldest first. *)
Record Progress : Type := mkProgress {
  _progress_dialog : option nat;
  _finished_query_during_display : Z;
  _queries : Dict.t (Dict.t PyVal);
  _minimum_duration : Z;
  _cancel_button_text : string;
  _allow_cancel_query : bool;
  _enable : bool;
  widgets : list QProgressDialog;
  _stimer : list (Z * Slot);
  aborted : list QNetworkReply
}.

Definition set_progress_dialog (d : option nat) (self : Progress) : Progress :=
  mkProgress d (_finished_query_during_display self) (_queries self)
    (_minimum_duration self) (_cancel_button_text self) (_allow_cancel_query self)
    (_enable self) (widgets self) (_stimer self) (aborted self).

Definition set_finished_query_during_display (n : Z) (self : Progress) : Progress :=
  mkProgress (_progress_dialog self) n (_queries self)
    (_minimum_duration self) (_cancel_button_text self) (_allow_cancel_query self)
    (_enable self) (widgets self) (_stimer self) (aborted self).

Definition set_queries (q : Dict.t (Dict.t PyVal)) (self : Progress) : Progress :=
  mkProgress (_progress_dialog self) (_finished_query_during_display self) q
    (_minimum_duration self) (_cancel_button_text self) (_allow_cancel_query self)
    (_enable self) (widgets self) (_stimer self) (aborted self).

Definition set_minimum_duration (ms : Z) (self : Progress) : Progress :=
  mkProgress (_progress_dialog self) (_finished_query_during_display self) (_queries self)
    ms (_cancel_button_text self) (_allow_cancel_query self)
    (_enable self) (widgets self) (_stimer self) (aborted self).

Definition set_cancel_button_text (t : string) (self : Progress) : Progress :=
  mkProgress (_progress_dialog self) (_finished_query_during_display self) (_queries self)
    (_minimum_duration self) t (_allow_cancel_query self)
    (_enable self) (widgets self) (_stimer self) (aborted self).

Definition set_allow_cancel_query (b : bool) (self : Progress) : Progress :=
  mkProgress (_progress_dialog self) (_finished_query_during_display self) (_queries self)
    (_minimum_duration self) (_cancel_button_text self) b
    (_enable self) (widgets self) (_stimer self) (aborted self).

Definition set_enable (b : bool) (self : Progress) : Progress :=
  mkProgress (_progress_dialog self) (_finished_query_during_display self) (_queries self)
    (_minimum_duration self) (_cancel_button_text self) (_allow_cancel_query self)
    b (widgets self) (_stimer self) (aborted self).

Definition set_widgets (ws : list QProgressDialog) (self : Progress) : Progress :=
  mkProgress (_progress_dialog self) (_finished_query_during_display self) (_queries self)
    (_minimum_duration self) (_cancel_button_text self) (_allow_cancel_query self)
    (_enable self) ws (_stimer self) (aborted self).

Definition set_stimer (ts : list (Z * Slot)) (self : Progress) : Progress :=
  mkProgress (_progress_dialog self) (_finished_query_during_display self) (_queries self)
    (_minimum_duration self) (_cancel_button_text self) (_allow_cancel_query self)
    (_enable self) (widgets self) ts (aborted self).

Definition set_aborted (rs : list QNetworkReply) (self : Progress) : Progress :=
  mkProgress (_progress_dialog self) (_finished_query_during_display self) (_queries self)
    (_minimum_duration self) (_cancel_button_text self) (_allow_cancel_query self)
    (_enable self) (widgets self) (_stimer self) rs.

(** The dialog behind reference [d]. *)
Definition widget (self : Progress) (d : nat) : option QProgressDialog :=
  nth_error (widgets self) d.

(** A method call on the dialog behind reference [d]. *)
Definition on_dialog (d : nat) (f : QProgressDialog -> QProgressDialog)
    (self : Progress) : Progress :=
  set_widgets (update_at (widgets self) d f) self.

(** [QTimer.singleShot(ms, slot)] *)
Definition singleShot (ms : Z) (f : Slot) (self : Progress) : Progress :=
  set_stimer (_stimer self ++ [(ms, f)]) self.

(** [response.abort()] *)
Definition abort (r : QNetworkReply) (self : Progress) : Progress :=
  set_aborted (aborted self ++ [r]) self.

(** [Progress.__init__] *)
Definition __init__ (min_duration : Z) : Progress :=
  mkProgress None 0 [] min_duration EmptyString false true [] [] [].

(** [list(self._queries.values())[0]] *)
Definition first_query (self : Progress) : option (Dict.t PyVal) :=
  nth_error (Dict.values (_queries self)) 0.

(** The test of line 100:
    [self._progress_dialog is None or self._progress_dialog.wasCanceled()]. *)
Definition no_usable_dialog (self : Progress) : option bool :=
  match _progress_dialog self with
  | None => Some true
  | Some d => w <- widget self d ;; Some (wasCanceled w)
  end.

(** Lines 101-113 of [show]: a new dialog is built and becomes the
    controller's dialog.  The result is its reference and the new state. *)
Definition show_create (self : Progress) : nat * Progress :=
  let progress_dialog := List.length (widgets self) in
  let w := QProgressDialog_new "Waiting for server response" None 0 0 in
  let w := connect_canceled Slot_cancelSlot w in
  let w := setWindowModality ApplicationModal w in
  let w := setWindowTitle "Please wait" w in
  let w := setMinimumDuration (_minimum_duration self) w in
  let w := if (0 <? Z.of_nat (String.length (_cancel_button_text self)))%Z
           then setCancelButtonText (_cancel_button_text self) w
           else setCancelButton_None w in
  let self := set_widgets (widgets self ++ [w]) self in
  let self := set_progress_dialog (Some progress_dialog) self in
  let self := set_finished_query_during_display 0 self in
  (progress_dialog, self).

(** Lines 119-127 of [show]: the existing dialog is brought up to date. *)
Definition show_update (progress_dialog : nat) (self : Progress) : option Progress :=
  if 1 <? Dict.len (_queries self) + _finished_query_during_display self then
    let self := on_dialog progress_dialog
                  (setMaximum (Dict.len (_queries self)
                               + _finished_query_during_display self)) self in
    Some (on_dialog progress_dialog
            (setValue (_finished_query_during_display self)) self)
  else if Dict.len (_queries self) =? 1 then
    query <- first_query self ;;
    m <- Dict.get query "maximum" ;;
    m <- as_int m ;;
    let self := on_dialog progress_dialog (setMaximum m) self in
    c <- Dict.get query "current" ;;
    c <- as_int c ;;
    Some (on_dialog progress_dialog (setValue c) self)
  else Some self.

(** Lines 129-131 of [show]. *)
Definition show_label (progress_dialog : nat) (self : Progress) : option Progress :=
  if 0 <? Dict.len (_queries self) then
    query <- first_query self ;;
    text <- Dict.get query "explanation" ;;
    text <- as_str text ;;
    Some (on_dialog progress_dialog (setLabelText text) self)
  else Some self.

Definition show (self : Progress) : option Progress :=
  fresh <- no_usable_dialog self ;;
  if fresh : bool then
    let '(progress_dialog, self) := show_create self in
    self <- show_label progress_dialog self ;;
    Some (singleShot (_minimum_duration self) Slot_show_dialog self)
  else
    progress_dialog <- _progress_dialog self ;;
    self <- show_update progress_dialog self ;;
    show_label progress_dialog self.

Definition _show_dialog (self : Progress) : Progress :=
  match _progress_dialog self with
  | Some d => if _enable self then on_dialog d show_exec self else self
  | None => self
  end.

Definition hide (self : Progress) : Progress :=
  match _progress_dialog self with
  | Some progress_dialog =>
      let self := set_progress_dialog None self in
      let self := on_dialog progress_dialog cancel self in
      on_dialog progress_dialog deleteLater self
  | None => self
  end.

Definition _addQuerySlot (query_id explanation : string) (response : QNetworkReply)
    (self : Progress) : option Progress :=
  let self :=
    set_queries
      (Dict.set (_queries self) query_id
         [("explanation", PyStr explanation); ("current", PyInt 0);
          ("maximum", PyInt 0); ("response", PyReply response)]) self in
  show self.

Definition _removeQuerySlot (query_id : string) (self : Progress) : option Progress :=
  let self :=
    set_finished_query_during_display (_finished_query_during_display self + 1) self in
  let self :=
    if Dict.contains (_queries self) query_id
    then set_queries (Dict.del (_queries self) query_id) self
    else self in
  if Dict.len (_queries self) =? 0 then Some (hide self) else show self.

Definition progress_dialog (self : Progress) : option nat := _progress_dialog self.

Definition _progressSlot (query_id : string) (current maximum : Z)
    (self : Progress) : option Progress :=
  if Dict.contains (_queries self) query_id then
    query <- Dict.get (_queries self) query_id ;;
    let self :=
      set_queries (Dict.set (_queries self) query_id
                     (Dict.set query "current" (PyInt current))) self in
    query <- Dict.get (_queries self) query_id ;;
    let self :=
      set_queries (Dict.set (_queries self) query_id
                     (Dict.set query "maximum" (PyInt maximum))) self in
    show self
  else Some self.

Definition setAllowCancelQuery (allow_cancel_query : bool) (self : Progress) : Progress :=
  set_allow_cancel_query allow_cancel_query self.

Definition setCancelButtonText_ (text : string) (self : Progress) : Progress :=
  set_cancel_button_text text self.

(** The loop of lines 95-96 over [self._queries.copy().values()]. *)
Fixpoint abort_all (queries : list (Dict.t PyVal)) (self : Progress) : option Progress :=
  match queries with
  | [] => Some self
  | query :: rest =>
      r <- Dict.get query "response" ;;
      r <- as_reply r ;;
      abort_all rest (abort r self)
  end.

Definition _cancelSlot (self : Progress) : option Progress :=
  if _allow_cancel_query self
  then abort_all (Dict.values (_queries self)) self
  else Some self.

(** ** The context manager *)

(** The keyword arguments [context] looks at; [None]: the keyword was not
    passed.  Other keywords are never read by the method. *)
Record Kwargs : Type := mkKwargs {
  min_duration : option Z;
  enable : option bool;
  cancel_button_text : option string;
  allow_cancel_query : option bool
}.

(** The local variables of the generator; [None]: not bound. *)
Record ContextLocals : Type := mkLocals {
  old_minimum_duration : option Z;
  old_enable : option bool;
  old_cancel_button_text : option string;
  old_allow_cancel_query : option bool
}.

(** Lines 159-170: up to the [yield]. *)
Definition context_enter (kwargs : Kwargs) (self : Progress) : ContextLocals * Progress :=
  let '(old_md, self) :=
    match min_duration kwargs with
    | Some v => (Some (_minimum_duration self), set_minimum_duration v self)
    | None => (None, self)
    end in
  let '(old_en, self) :=
    match enable kwargs with
    | Some v => (Some (_enable self), set_enable v self)
    | None => (None, self)
    end in
  let '(old_cbt, self) :=
    match cancel_button_text kwargs with
    | Some v => (Some (_cancel_button_text self), set_cancel_button_text v self)
    | None => (None, self)
    end in
  let '(old_acq, self) :=
    match allow_cancel_query kwargs with
    | Some v => (Some (_allow_cancel_query self), set_allow_cancel_query v self)
    | None => (None, self)
    end in
  (mkLocals old_md old_en old_cbt old_acq, self).

(** Lines 172-179: after the [yield].  Reading a local that is not bound
    raises. *)
Definition context_exit (kwargs : Kwargs) (locals : ContextLocals)
    (self : Progress) : option Progress :=
  self <- match min_duration kwargs with
          | Some _ => v <- old_minimum_duration locals ;; Some (set_minimum_duration v self)
          | None => Some self
          end ;;
  self <- match enable kwargs with
          | Some _ => v <- old_enable locals ;; Some (set_enable v self)
          | None => Some self
          end ;;
  self <- match allow_cancel_query kwargs with
          | Some _ => v <- old_allow_cancel_query locals ;; Some (set_allow_cancel_query v self)
          | None => Some self
          end ;;
  match cancel_button_text kwargs with
  | Some _ => v <- old_cancel_button_text locals ;; Some (set_cancel_button_text v self)
  | None => Some self
  end.

(** [with progress.context(options): block].  The block is any code that
    runs on the controller's state; [None] from it is an exception, which
    leaves the generator at its [yield]. *)
Definition context (kwargs : Kwargs) (block : Progress -> option Progress)
    (self : Progress) : option Progress :=
  let '(locals, self) := context_enter kwargs self in
  self <- block self ;;
  context_exit kwargs locals self.

(** ** The singleton accessor *)

(** The class object: attribute [_instance] ([None]: the class has no such
    attribute, [Some None]: it is None) and the Progress objects constructed
    so far, a reference being an index. *)
Record ProgressClass : Type := mkClass {
  _instance : option (option nat);
  objects : list Progress
}.

Definition instance (cls : ProgressClass) : nat * ProgressClass :=
  match _instance cls with
  | Some (Some r) => (r, cls)
  | _ =>
      let r := List.length (objects cls) in
      (r, mkClass (Some (Some r)) (objects cls ++ [__init__ 1000]))
  end.

(** What runs between two calls of [instance()]: further calls of it, and
    method calls on a constructed object. *)
Inductive class_step : ProgressClass -> ProgressClass -> Prop :=
| step_instance : forall cls, class_step cls (snd (instance cls))
| step_method : forall cls r (m : Progress -> Progress),
    class_step cls (mkClass (_instance cls) (update_at (objects cls) r m)).

Inductive class_steps : ProgressClass -> ProgressClass -> Prop :=
| steps_refl : forall cls, class_steps cls cls
| steps_cons : forall cls1 cls2 cls3,
    class_step cls1 cls2 -> class_steps cls2 cls3 -> class_steps cls1 cls3.

(** ** Calls and events *)

(** The six operations of the controller. *)
Inductive Call : Type :=
| Call_addQuerySlot (query_id explanation : string) (response : QNetworkReply)
| Call_removeQuerySlot (query_id : string)
| Call_progressSlot (query_id : string) (current maximum : Z)
| Call_cancelSlot
| Call_show
| Call_hide.

Definition exec (c : Call) (self : Progress) : option Progress :=
  match c with
  | Call_addQuerySlot q e r => _addQuerySlot q e r self
  | Call_removeQuerySlot q => _removeQuerySlot q self
  | Call_progressSlot q c m => _progressSlot q c m self
  | Call_cancelSlot => _cancelSlot self
  | Call_show => show self
  | Call_hide => Some (hide self)
  end.

Definition run_slot (f : Slot) (self : Progress) : option Progress :=
  match f with
  | Slot_cancelSlot => _cancelSlot self
  | Slot_show_dialog => Some (_show_dialog self)
  end.

Fixpoint run_slots (fs : list Slot) (self : Progress) : option Progress :=
  match fs with
  | [] => Some self
  | f :: fs' => self <- run_slot f self ;; run_slots fs' self
  end.

(** The user cancels dialog [d]: the dialog cancels itself and the slots
    connected to its canceled signal run. *)
Definition user_cancel (d : nat) (self : Progress) : option Progress :=
  w <- widget self d ;;
  run_slots (canceled w) (on_dialog d cancel self).

Fixpoint remove_at {A : Type} (l : list A) (i : nat) : list A :=
  match l, i with
  | [], _ => []
  | _ :: l', O => l'
  | x :: l', S i' => x :: remove_at l' i'
  end.

(** The [i]-th pending single shot fires. *)
Definition timeout (i : nat) (self : Progress) : option Progress :=
  match nth_error (_stimer self) i with
  | Some (_, f) => run_slot f (set_stimer (remove_at (_stimer self) i) self)
  | None => Some self
  end.

(** Everything that can happen to a controller. *)
Inductive Event : Type :=
| Ev_call (c : Call)
| Ev_user_cancel (d : nat)
| Ev_timeout (i : nat)
| Ev_setAllowCancelQuery (b : bool)
| Ev_setCancelButtonText (t : string)
| Ev_context_enter (kwargs : Kwargs)
| Ev_context_exit (kwargs : Kwargs) (locals : ContextLocals).

Definition handle (e : Event) (self : Progress) : option Progress :=
  match e with
  | Ev_call c => exec c self
  | Ev_user_cancel d => user_cancel d self
  | Ev_timeout i => timeout i self
  | Ev_setAllowCancelQuery b => Some (setAllowCancelQuery b self)
  | Ev_setCancelButtonText t => Some (setCancelButtonText_ t self)
  | Ev_context_enter kwargs => Some (snd (context_enter kwargs self))
  | Ev_context_exit kwargs locals => context_exit kwargs locals self
  end.

(** The states a controller built by [__init__] can be in. *)
Inductive reachable : Progress -> Prop :=
| reach_init : forall min_duration, reachable (__init__ min_duration)
| reach_step : forall self e self',
    reachable self -> handle e self = Some self' -> reachable self'.

(** ** The data model *)

(** A dict with exactly the four fields of a query, a str, two ints and a
    reply. *)
Definition is_query (q : Dict.t PyVal) : bool :=
  match q with
  | [(k1, PyStr _); (k2, PyInt _); (k3, PyInt _); (k4, PyReply _)] =>
      String.eqb k1 "explanation" && String.eqb k2 "current"
      && String.eqb k3 "maximum" && String.eqb k4 "response"
  | _ => false
  end.

Fixpoint unique_keys (ks : list string) : bool :=
  match ks with
  | [] => true
  | k :: ks' => negb (existsb (String.eqb k) ks') && unique_keys ks'
  end.

(** The collection maps query ids to query records. *)
Definition data_model (self : Progress) : bool :=
  unique_keys (Dict.keys (_queries self))
  && forallb is_query (Dict.values (_queries self)).

(** The dialog reference of the controller, if any, is one of a dialog that
    was constructed. *)
Definition dialog_exists (self : Progress) : bool :=
  match _progress_dialog self with
  | Some d => Nat.ltb d (List.length (widgets self))
  | None => true
  end.

Definition wf (self : Progress) : bool := data_model self && dialog_exists self.

(** A dialog that the user can still see or that can still come up. *)
Definition live (w : QProgressDialog) : bool := negb (wasCanceled w).

(** The references of the live dialogs. *)
Fixpoint live_from (r : nat) (ws : list QProgressDialog) : list nat :=
  match ws with
  | [] => []
  | w :: ws' => if live w then r :: live_from (S r) ws' else live_from (S r) ws'
  end.

Definition live_dialogs (self : Progress) : list nat := live_from 0%nat (widgets self).


(** The setters [show] applies to an existing dialog touch its label, its
    maximum and its value only. *)
Definition display_only (f : QProgressDialog -> QProgressDialog) : Prop :=
  forall w,
    wasCanceled (f w) = wasCanceled w /\ deleted (f w) = deleted w
    /\ visible (f w) = visible w /\ canceled (f w) = canceled w
    /\ cancelButton (f w) = cancelButton w
    /\ minimumDuration (f w) = minimumDuration w.


(** ** Sample states *)

(** A controller that tracks one query. *)
Definition one_query : Progress :=
  match _addQuerySlot "q1" "Loading" 7%nat (__init__ 1000) with
  | Some self => self
  | None => __init__ 1000
  end.

(** A controller that tracks two queries, the first of them half way. *)
Definition two_queries : Progress :=
  match bind (_progressSlot "q1" 5 10 one_query) (_addQuerySlot "q2" "Saving" 8%nat) with
  | Some self => self
  | None => __init__ 1000
  end.

(** The controller of [one_query] after the user has canceled its dialog. *)
Definition canceled_one_query : Progress :=
  match user_cancel 0 one_query with
  | Some self => self
  | None => one_query
  end.

(** The reply a query record holds as its cancel handle. *)
Definition response_of (query : Dict.t PyVal) : option QNetworkReply :=
  r <- Dict.get query "response" ;; as_reply r.

(** The cancel handles of the tracked queries, in the order of the
    collection. *)
Definition tracked_replies (self : Progress) : list QNetworkReply :=
  flat_map (fun query => match response_of query with
                         | Some r => [r]
                         | None => []
                         end)
           (Dict.values (_queries self)).

(** Options and a block for a sample use of the context manager: the
    minimum duration and the cancel button text are passed, and the block
    switches the dialog off. *)
Definition sample_kwargs : Kwargs := mkKwargs (Some 0) None (Some "Abort") None.

Definition sample_block (self : Progress) : option Progress :=
  Some (set_enable false self).

(** Every dialog that was not canceled is the one the controller holds. *)
Definition single_dialog (self : Progress) : Prop :=
  forall d w,
    widget self d = Some w -> wasCanceled w = false ->
    _progress_dialog self = Some d.

(** The invariant of the controller. *)
Definition good (self : Progress) : Prop := wf self = true /\ single_dialog self.

(** ** Events that come through the signals *)

(** The events other than direct calls of the public methods [show] and
    [hide]: the slots, which run when their signals are emitted, the user's
    cancel, the single shots and the changes of the settings. *)
Definition from_signal (e : Event) : bool :=
  match e with
  | Ev_call Call_show | Ev_call Call_hide => false
  | _ => true
  end.

(** The states of a controller that is driven through its signals only. *)
Inductive signal_driven : Progress -> Prop :=
| driven_init : forall min_duration, signal_driven (__init__ min_duration)
| driven_step : forall self e self',
    signal_driven self -> from_signal e = true ->
    handle e self = Some self' -> signal_driven self'.



(** Every dialog that is visible in [self'] was already visible in [self]. *)
Definition no_new_visible (self self' : Progress) : Prop :=
  forall d w',
    widget self' d = Some w' -> visible w' = true ->
    exists w, widget self d = Some w /\ visible w = true.

(** The dialog of [one_query]. *)
Definition one_query_dialog : QProgressDialog :=
  mkDialog "Loading" None 0 0 None ApplicationModal "Please wait" 1000
    [Slot_cancelSlot] false false false.

(** A controller without queries on which [show] was called directly. *)
Definition shown_empty : Progress :=
  match show (__init__ 1000) with
  | Some self => self
  | None => __init__ 1000
  end.

(** The dialog of [two_queries]. *)
Definition two_queries_dialog : QProgressDialog :=
  mkDialog "Loading" None 0 2 (Some 0) ApplicationModal "Please wait" 1000
    [Slot_cancelSlot] false false false.
(** * Properties *)

(** ** Dicts *)

Module DictFacts.
Import Dict.

Section Facts.
Context {V : Type}.
Implicit Types (d : t V) (k : string) (v : V).

Lemma get_set_eq d k v : get (set d k v) k = Some v.
Proof.
  induction d as [|[k' v'] d IH]; simpl.
  - now rewrite String.eqb_refl.
  - destruct (String.eqb k k') eqn:E; simpl; rewrite E; auto.
Qed.

Lemma get_set_neq d k k' v : k <> k' -> get (set d k v) k' = get d k'.
Proof.
  intros N. induction d as [|[k0 v0] d IH]; simpl.
  - destruct (String.eqb_spec k' k); congruence.
  - destruct (String.eqb_spec k k0); simpl.
    + subst. destruct (String.eqb_spec k' k0); congruence.
    + now rewrite IH.
Qed.

Lemma get_del_eq d k : get (del d k) k = None.
Proof.
  induction d as [|[k0 v0] d IH]; simpl; auto.
  destruct (String.eqb k k0) eqn:E; simpl; auto. now rewrite E.
Qed.

Lemma get_del_neq d k k' : k <> k' -> get (del d k) k' = get d k'.
Proof.
  intros N. induction d as [|[k0 v0] d IH]; simpl; auto.
  destruct (String.eqb_spec k k0); simpl.
  - subst. destruct (String.eqb_spec k' k0); congruence.
  - now rewrite IH.
Qed.

Lemma get_none_notin d k : get d k = None -> ~ In k (keys d).
Proof.
  induction d as [|[k0 v0] d IH]; simpl; auto.
  destruct (String.eqb_spec k k0); [discriminate|].
  intros G [E|I]; [congruence | now apply IH].
Qed.

Lemma get_some_in d k v : get d k = Some v -> In (k, v) d.
Proof.
  induction d as [|[k0 v0] d IH]; simpl; [discriminate|].
  destruct (String.eqb_spec k k0).
  - intros [= ->]. subst. now left.
  - intros G. right. now apply IH.
Qed.

Lemma del_absent d k : contains d k = false -> del d k = d.
Proof.
  unfold contains. induction d as [|[k0 v0] d IH]; simpl; auto.
  destruct (String.eqb k k0); simpl; [discriminate|].
  intros G. now rewrite IH.
Qed.

Lemma keys_set_present d k v : contains d k = true -> keys (set d k v) = keys d.
Proof.
  unfold contains. induction d as [|[k0 v0] d IH]; simpl; [discriminate|].
  destruct (String.eqb k k0); simpl; auto.
  intros G. now rewrite IH.
Qed.

Lemma keys_set_absent d k v : contains d k = false -> keys (set d k v) = (keys d ++ [k])%list.
Proof.
  unfold contains. induction d as [|[k0 v0] d IH]; simpl; auto.
  destruct (String.eqb k k0); simpl; [discriminate|].
  intros G. now rewrite IH.
Qed.

Lemma len_set_present d k v : contains d k = true -> len (set d k v) = len d.
Proof.
  intros C. unfold len.
  rewrite <- (length_map fst (set d k v)), <- (length_map fst d).
  fold (keys (set d k v)) (keys d). now rewrite keys_set_present.
Qed.

Lemma values_forallb_set (p : V -> bool) d k v :
  forallb p (values d) = true -> p v = true ->
  forallb p (values (set d k v)) = true.
Proof.
  intros F P. induction d as [|[k0 v0] d IH]; simpl in *.
  - now rewrite P.
  - apply andb_true_iff in F as [F1 F2].
    destruct (String.eqb k k0); simpl.
    + now rewrite P.
    + now rewrite F1, IH.
Qed.

Lemma values_forallb_del (p : V -> bool) d k :
  forallb p (values d) = true -> forallb p (values (del d k)) = true.
Proof.
  intros F. induction d as [|[k0 v0] d IH]; simpl in *; auto.
  apply andb_true_iff in F as [F1 F2].
  destruct (String.eqb k k0); simpl; auto.
  now rewrite F1, IH.
Qed.

Lemma values_forallb_get (p : V -> bool) d k v :
  forallb p (values d) = true -> get d k = Some v -> p v = true.
Proof.
  intros F G. apply get_some_in in G.
  rewrite forallb_forall in F. apply F.
  unfold values. apply in_map_iff. now exists (k, v).
Qed.

End Facts.

Lemma unique_keys_NoDup ks : unique_keys ks = true <-> NoDup ks.
Proof.
  induction ks as [|k ks IH]; simpl.
  - split; auto. constructor.
  - rewrite andb_true_iff, negb_true_iff, IH. split.
    + intros [E N]. constructor; auto. intros I.
      assert (existsb (String.eqb k) ks = true) as X
          by (apply existsb_exists; exists k; split; auto; apply String.eqb_refl).
      congruence.
    + intros N. inversion N as [|? ? NI ND]; subst. split; auto.
      destruct (existsb (String.eqb k) ks) eqn:E; auto.
      apply existsb_exists in E as (k' & I & E).
      apply String.eqb_eq in E. subst. contradiction.
Qed.

Lemma unique_keys_set {V : Type} (d : t V) k v :
  unique_keys (keys d) = true -> unique_keys (keys (set d k v)) = true.
Proof.
  intros U. destruct (contains d k) eqn:C.
  - now rewrite keys_set_present.
  - rewrite keys_set_absent by auto.
    apply unique_keys_NoDup. apply unique_keys_NoDup in U.
    apply NoDup_app; auto.
    + repeat constructor. simpl. tauto.
    + intros x I [<-|[]]. revert I. apply get_none_notin.
      unfold contains in C. destruct (get d k); congruence.
Qed.

Lemma unique_keys_del {V : Type} (d : t V) k :
  unique_keys (keys d) = true -> unique_keys (keys (del d k)) = true.
Proof.
  rewrite !unique_keys_NoDup.
  induction d as [|[k0 v0] d IH]; simpl; auto.
  intros N. inversion N as [|? ? NI ND]; subst.
  destruct (String.eqb k k0); simpl; auto.
  constructor; auto. intros I. apply NI.
  unfold keys, del in I. apply in_map_iff in I as (x & E & I).
  apply filter_In in I as [I _]. apply in_map_iff. now exists x.
Qed.

End DictFacts.

(** ** The store of dialogs *)

Lemma update_at_length {A : Type} (l : list A) r f :
  List.length (update_at l r f) = List.length l.
Proof.
  revert r. induction l as [|x l IH]; intros [|r]; simpl; auto.
Qed.

Lemma nth_error_update_at_eq {A : Type} (l : list A) r f :
  nth_error (update_at l r f) r = option_map f (nth_error l r).
Proof.
  revert r. induction l as [|x l IH]; intros [|r]; simpl; auto.
Qed.

Lemma nth_error_update_at_neq {A : Type} (l : list A) r r' f :
  r <> r' -> nth_error (update_at l r f) r' = nth_error l r'.
Proof.
  revert r r'. induction l as [|x l IH]; intros [|r] [|r'] N; simpl; auto.
  congruence.
Qed.

Lemma update_at_compose {A : Type} (l : list A) r f g :
  update_at (update_at l r f) r g = update_at l r (fun x => g (f x)).
Proof.
  revert r. induction l as [|x l IH]; intros [|r]; simpl; auto.
  now rewrite IH.
Qed.

Lemma on_dialog_compose d f g self :
  on_dialog d g (on_dialog d f self) = on_dialog d (fun w => g (f w)) self.
Proof.
  unfold on_dialog, set_widgets. simpl. now rewrite update_at_compose.
Qed.

(** ** Query records *)

Lemma is_query_inv q :
  is_query q = true ->
  exists e c m r,
    q = [("explanation", PyStr e); ("current", PyInt c);
         ("maximum", PyInt m); ("response", PyReply r)].
Proof.
  unfold is_query. intros H.
  destruct q as [|[k1 [e| |]] [|[k2 [|c|]] [|[k3 [|m|]] [|[k4 [| |r]] [|]]]]];
    try discriminate.
  repeat (apply andb_true_iff in H as [H ?]).
  repeat match goal with E : String.eqb _ _ = true |- _ =>
    apply String.eqb_eq in E end.
  subst. now exists e, c, m, r.
Qed.

Lemma data_model_query self query_id q :
  data_model self = true -> Dict.get (_queries self) query_id = Some q ->
  is_query q = true.
Proof.
  unfold data_model. intros D G. apply andb_true_iff in D as [_ D].
  eapply DictFacts.values_forallb_get; eauto.
Qed.

Lemma data_model_first self q :
  data_model self = true -> first_query self = Some q -> is_query q = true.
Proof.
  unfold data_model, first_query. intros D G.
  apply andb_true_iff in D as [_ D].
  rewrite forallb_forall in D. apply D.
  eapply nth_error_In; eauto.
Qed.

Lemma first_query_nonempty self :
  0 < Dict.len (_queries self) -> exists q, first_query self = Some q.
Proof.
  unfold Dict.len, first_query, Dict.values.
  destruct (_queries self) as [|[k q] l]; simpl; [lia|].
  intros _. now exists q.
Qed.

(** ** [show] *)

Lemma show_update_total d self :
  data_model self = true -> exists self', show_update d self = Some self'.
Proof.
  intros D. unfold show_update.
  destruct (1 <? _); [eauto|].
  destruct (Z.eqb_spec (Dict.len (_queries self)) 1) as [L|L]; [|eauto].
  destruct (first_query_nonempty self) as [q Q]; [lia|].
  rewrite Q. simpl.
  destruct (is_query_inv q (data_model_first _ _ D Q)) as (e & c & m & r & ->).
  simpl. eauto.
Qed.

Lemma show_update_on_dialog d self self' :
  show_update d self = Some self' ->
  exists f, display_only f /\ self' = on_dialog d f self.
Proof.
  unfold show_update.
  destruct (1 <? _).
  - intros [= <-]. rewrite on_dialog_compose.
    eexists. split; [|reflexivity]. intros w. simpl. tauto.
  - destruct (_ =? 1).
    + destruct (first_query self) as [q|]; simpl; [|discriminate].
      destruct (Dict.get q "maximum") as [[|m|]|]; simpl; try discriminate.
      destruct (Dict.get q "current") as [[|c|]|]; simpl; try discriminate.
      intros [= <-]. rewrite on_dialog_compose.
      eexists. split; [|reflexivity]. intros w. simpl. tauto.
    + intros [= <-]. exists (fun w => w). split.
      * intros w. tauto.
      * unfold on_dialog, set_widgets. destruct self; simpl. f_equal.
        clear. induction widgets0 as [|x l IH] in d |- *; destruct d; simpl; auto.
        now rewrite <- IH.
Qed.

Lemma show_label_total d self :
  data_model self = true -> exists self', show_label d self = Some self'.
Proof.
  intros D. unfold show_label.
  destruct (Z.ltb_spec 0 (Dict.len (_queries self))) as [L|L]; [|eauto].
  destruct (first_query_nonempty self L) as [q Q].
  rewrite Q. simpl.
  destruct (is_query_inv q (data_model_first _ _ D Q)) as (e & c & m & r & ->).
  simpl. eauto.
Qed.

Lemma show_label_on_dialog d self self' :
  show_label d self = Some self' ->
  exists f, display_only f /\ self' = on_dialog d f self
            /\ forall w, maximum (f w) = maximum w /\ value (f w) = value w.
Proof.
  unfold show_label.
  destruct (0 <? _).
  - destruct (first_query self) as [q|]; simpl; [|discriminate].
    destruct (Dict.get q "explanation") as [[t| |]|]; simpl; try discriminate.
    intros [= <-]. eexists. split; [|split; [reflexivity|]]; intros w; simpl; tauto.
  - intros [= <-]. exists (fun w => w). split; [|split].
    + intros w. tauto.
    + unfold on_dialog, set_widgets. destruct self; simpl. f_equal.
      clear. induction widgets0 as [|x l IH] in d |- *; destruct d; simpl; auto.
      now rewrite <- IH.
    + tauto.
Qed.

Lemma on_dialog_widget_eq d f self :
  widget (on_dialog d f self) d = option_map f (widget self d).
Proof. unfold widget, on_dialog. simpl. apply nth_error_update_at_eq. Qed.

Lemma on_dialog_widget_neq d d' f self :
  d <> d' -> widget (on_dialog d f self) d' = widget self d'.
Proof. unfold widget, on_dialog. simpl. apply nth_error_update_at_neq. Qed.

Lemma show_existing d w self :
  _progress_dialog self = Some d -> widget self d = Some w -> wasCanceled w = false ->
  show self = (self1 <- show_update d self ;; show_label d self1).
Proof.
  intros P W C. unfold show, no_usable_dialog. rewrite P, W. simpl. now rewrite C.
Qed.

Lemma show_fresh self :
  no_usable_dialog self = Some true ->
  show self =
    (self1 <- show_label (List.length (widgets self)) (snd (show_create self)) ;;
     Some (singleShot (_minimum_duration self1) Slot_show_dialog self1)).
Proof.
  intros N. unfold show. rewrite N. reflexivity.
Qed.

Lemma no_usable_dialog_total self :
  dialog_exists self = true -> exists b, no_usable_dialog self = Some b.
Proof.
  unfold dialog_exists, no_usable_dialog, widget.
  destruct (_progress_dialog self) as [d|]; [|eauto].
  intros L. apply Nat.ltb_lt in L.
  destruct (nth_error (widgets self) d) eqn:E; simpl; [eauto|].
  apply nth_error_None in E. lia.
Qed.

Lemma single_query_first self query_id q :
  Dict.len (_queries self) = 1 -> Dict.get (_queries self) query_id = Some q ->
  first_query self = Some q.
Proof.
  unfold Dict.len, first_query, Dict.values.
  destruct (_queries self) as [|[k q0] [|]]; simpl; try lia; try discriminate.
  intros _. destruct (String.eqb query_id k); congruence.
Qed.

(** C2. [show()] on an existing dialog that was not canceled: when the
    number of active queries plus the number of queries finished during the
    display is above one, the dialog's maximum becomes that sum and its
    value the finished count; otherwise, when exactly one query is active,
    the dialog's maximum and value become that query's own maximum and
    current progress. *)
Theorem show_aggregates self d w :
  data_model self = true ->
  _progress_dialog self = Some d -> widget self d = Some w -> wasCanceled w = false ->
  exists self' w',
    show self = Some self' /\ _progress_dialog self' = Some d
    /\ widget self' d = Some w'
    /\ (1 < Dict.len (_queries self) + _finished_query_during_display self ->
        maximum w' = Dict.len (_queries self) + _finished_query_during_display self
        /\ value w' = Some (_finished_query_during_display self))
    /\ (Dict.len (_queries self) + _finished_query_during_display self <= 1 ->
        Dict.len (_queries self) = 1 ->
        forall query_id query,
          Dict.get (_queries self) query_id = Some query ->
          Dict.get query "maximum" = Some (PyInt (maximum w'))
          /\ exists c, Dict.get query "current" = Some (PyInt c) /\ value w' = Some c).
Proof.
  intros D P W C.
  rewrite (show_existing d w) by assumption.
  destruct (show_update_total d self D) as [s1 U]. rewrite U. simpl.
  assert (D1 : data_model s1 = true).
  { destruct (show_update_on_dialog _ _ _ U) as (f & _ & ->). exact D. }
  destruct (show_label_total d s1 D1) as [s2 L]. rewrite L.
  destruct (show_label_on_dialog _ _ _ L) as (g & _ & -> & G).
  assert (P1 : _progress_dialog s1 = Some d).
  { destruct (show_update_on_dialog _ _ _ U) as (f & _ & ->). exact P. }
  revert U. unfold show_update.
  destruct (Z.ltb_spec 1 (Dict.len (_queries self) + _finished_query_during_display self))
    as [Many|Few].
  - intros [= <-]. eexists _, _. split; [reflexivity|]. split; [exact P|].
    rewrite !on_dialog_widget_eq, W. simpl. split; [reflexivity|].
    split; [|lia]. intros _.
    destruct (G (setValue (_finished_query_during_display self)
                   (setMaximum (Dict.len (_queries self)
                                + _finished_query_during_display self) w))) as [-> ->].
    simpl. auto.
  - destruct (Z.eqb_spec (Dict.len (_queries self)) 1) as [One|NotOne].
    + destruct (first_query self) as [q|] eqn:Q; simpl; [|discriminate].
      destruct (Dict.get q "maximum") as [[|m|]|] eqn:M; simpl; try discriminate.
      destruct (Dict.get q "current") as [[|c|]|] eqn:Cu; simpl; try discriminate.
      intros [= <-]. eexists _, _. split; [reflexivity|]. split; [exact P|].
      rewrite !on_dialog_widget_eq, W. simpl. split; [reflexivity|].
      split; [lia|]. intros _ _ query_id query Gq.
      rewrite (single_query_first _ _ _ One Gq) in Q. injection Q as ->.
      destruct (G (setValue c (setMaximum m w))) as [-> ->]. simpl.
      split; [exact M|]. now exists c.
    + intros [= <-]. eexists _, _. split; [reflexivity|]. split; [exact P|].
      rewrite on_dialog_widget_eq, W. simpl. split; [reflexivity|].
      split; intros; lia.
Qed.

Lemma show_aggregates_witness :
  data_model two_queries = true /\
  exists self' w',
    show two_queries = Some self' /\ _progress_dialog self' = Some 0%nat
    /\ widget self' 0 = Some w'
    /\ (1 < Dict.len (_queries two_queries)
            + _finished_query_during_display two_queries ->
        maximum w' = Dict.len (_queries two_queries)
                     + _finished_query_during_display two_queries
        /\ value w' = Some (_finished_query_during_display two_queries))
    /\ (Dict.len (_queries two_queries)
        + _finished_query_during_display two_queries <= 1 ->
        Dict.len (_queries two_queries) = 1 ->
        forall query_id query,
          Dict.get (_queries two_queries) query_id = Some query ->
          Dict.get query "maximum" = Some (PyInt (maximum w'))
          /\ exists c, Dict.get query "current" = Some (PyInt c) /\ value w' = Some c).
Proof.
  split; [vm_compute; reflexivity|].
  eapply (show_aggregates two_queries 0); vm_compute; reflexivity.
Defined.

Lemma display_only_compose f g :
  display_only f -> display_only g -> display_only (fun w => g (f w)).
Proof.
  intros F G w. specialize (F w). specialize (G (f w)).
  repeat match goal with H : _ /\ _ |- _ => destruct H end.
  repeat split; congruence.
Qed.

(** What a call of [show] that returns has done: either a new dialog was
    built, labelled and given a single shot, or the existing one was
    refreshed. *)
Lemma show_shape self self' :
  show self = Some self' ->
  (no_usable_dialog self = Some true /\
   exists f, display_only f /\
     self' = singleShot (_minimum_duration self) Slot_show_dialog
               (on_dialog (List.length (widgets self)) f (snd (show_create self))))
  \/ (exists d w f,
        _progress_dialog self = Some d /\ widget self d = Some w
        /\ wasCanceled w = false /\ display_only f /\ self' = on_dialog d f self).
Proof.
  unfold show. destruct (no_usable_dialog self) as [[|]|] eqn:N; simpl; try discriminate.
  - destruct (show_label _ _) as [s1|] eqn:L; simpl; [|discriminate].
    intros [= <-]. left. split; [reflexivity|].
    destruct (show_label_on_dialog _ _ _ L) as (f & F & -> & _).
    exists f. split; [exact F|]. reflexivity.
  - unfold no_usable_dialog in N.
    destruct (_progress_dialog self) as [d|] eqn:P; [|discriminate].
    destruct (widget self d) as [w|] eqn:W; simpl in N; [|discriminate].
    injection N as C. simpl.
    destruct (show_update d self) as [s1|] eqn:U; simpl; [|discriminate].
    intros L. right.
    destruct (show_update_on_dialog _ _ _ U) as (f & F & ->).
    destruct (show_label_on_dialog _ _ _ L) as (g & G & -> & _).
    rewrite on_dialog_compose.
    exists d, w, (fun x => g (f x)).
    split; [reflexivity|]. split; [exact W|]. split; [exact C|].
    split; [now apply display_only_compose | reflexivity].
Qed.

Lemma show_total self : wf self = true -> exists self', show self = Some self'.
Proof.
  unfold wf. intros H. apply andb_true_iff in H as [D E].
  destruct (no_usable_dialog_total self E) as [[|] N].
  - rewrite show_fresh by exact N.
    destruct (show_label_total (List.length (widgets self)) (snd (show_create self)))
      as [s1 L]; [exact D|].
    rewrite L. simpl. eauto.
  - unfold show. rewrite N. simpl.
    unfold no_usable_dialog in N.
    destruct (_progress_dialog self) as [d|]; [|discriminate]. simpl.
    destruct (show_update_total d self D) as [s1 U]. rewrite U. simpl.
    apply show_label_total.
    destruct (show_update_on_dialog _ _ _ U) as (f & _ & ->). exact D.
Qed.

(** [show] leaves the collection, the settings and the replies alone. *)
Lemma show_frame self self' :
  show self = Some self' ->
  _queries self' = _queries self
  /\ _minimum_duration self' = _minimum_duration self
  /\ _cancel_button_text self' = _cancel_button_text self
  /\ _allow_cancel_query self' = _allow_cancel_query self
  /\ _enable self' = _enable self
  /\ aborted self' = aborted self.
Proof.
  intros S. destruct (show_shape _ _ S) as [(_ & f & _ & ->)|(d & w & f & _ & _ & _ & _ & ->)];
    simpl; repeat split; reflexivity.
Qed.

Lemma show_dialog_exists self self' :
  show self = Some self' -> dialog_exists self' = true.
Proof.
  intros S. destruct (show_shape _ _ S) as [(_ & f & _ & ->)|(d & w & f & P & W & _ & _ & ->)];
    unfold dialog_exists; simpl.
  - rewrite update_at_length, length_app. simpl. apply Nat.ltb_lt. lia.
  - rewrite P, update_at_length. apply Nat.ltb_lt.
    apply nth_error_Some. unfold widget in W. congruence.
Qed.

Lemma show_wf self self' : wf self = true -> show self = Some self' -> wf self' = true.
Proof.
  unfold wf. intros H S. apply andb_true_iff in H as [D _].
  apply andb_true_iff. split; [|eapply show_dialog_exists; eauto].
  unfold data_model in *. destruct (show_frame _ _ S) as (-> & _). exact D.
Qed.

Lemma hide_frame self :
  _queries (hide self) = _queries self
  /\ _finished_query_during_display (hide self) = _finished_query_during_display self
  /\ _progress_dialog (hide self) = None
  /\ aborted (hide self) = aborted self.
Proof.
  unfold hide. destruct (_progress_dialog self) eqn:P; simpl; auto.
Qed.

Lemma hide_wf self : data_model self = true -> wf (hide self) = true.
Proof.
  unfold wf, data_model, dialog_exists. intros D.
  destruct (hide_frame self) as (-> & _ & -> & _). now rewrite D.
Qed.

(** ** The slots *)

Lemma data_model_set self query_id q :
  data_model self = true -> is_query q = true ->
  data_model (set_queries (Dict.set (_queries self) query_id q) self) = true.
Proof.
  unfold data_model. simpl. intros D Q.
  apply andb_true_iff in D as [U F]. apply andb_true_iff. split.
  - now apply DictFacts.unique_keys_set.
  - now apply DictFacts.values_forallb_set.
Qed.

Lemma data_model_del self query_id :
  data_model self = true ->
  data_model (set_queries (Dict.del (_queries self) query_id) self) = true.
Proof.
  unfold data_model. simpl. intros D.
  apply andb_true_iff in D as [U F]. apply andb_true_iff. split.
  - now apply DictFacts.unique_keys_del.
  - now apply DictFacts.values_forallb_del.
Qed.

Lemma wf_split self : wf self = true <-> data_model self = true /\ dialog_exists self = true.
Proof. unfold wf. apply andb_true_iff. Qed.

(** C4. Starting a query: [_addQuerySlot] returns, and afterwards the
    collection maps the id to the record with the given explanation, a
    current progress of 0, a maximum progress of 0 and the response as
    cancel handle; the entry of every other id is as before. *)
Theorem addQuerySlot_creates_entry self query_id explanation response :
  wf self = true ->
  exists self',
    _addQuerySlot query_id explanation response self = Some self'
    /\ Dict.get (_queries self') query_id =
         Some [("explanation", PyStr explanation); ("current", PyInt 0);
               ("maximum", PyInt 0); ("response", PyReply response)]
    /\ forall other, other <> query_id ->
         Dict.get (_queries self') other = Dict.get (_queries self) other.
Proof.
  intros H. apply wf_split in H as [D E]. unfold _addQuerySlot.
  set (q := [("explanation", PyStr explanation); ("current", PyInt 0);
             ("maximum", PyInt 0); ("response", PyReply response)]).
  set (s1 := set_queries (Dict.set (_queries self) query_id q) self).
  assert (W1 : wf s1 = true).
  { apply wf_split. split; [apply data_model_set; auto | exact E]. }
  destruct (show_total s1 W1) as [s' S]. exists s'. split; [exact S|].
  destruct (show_frame _ _ S) as (-> & _). simpl. split.
  - apply DictFacts.get_set_eq.
  - intros other N. apply DictFacts.get_set_neq. congruence.
Qed.

Lemma addQuerySlot_creates_entry_witness :
  wf one_query = true /\
  exists self',
    _addQuerySlot "q2" "Saving" 8%nat one_query = Some self'
    /\ Dict.get (_queries self') "q2" =
         Some [("explanation", PyStr "Saving"); ("current", PyInt 0);
               ("maximum", PyInt 0); ("response", PyReply 8%nat)]
    /\ forall other, other <> "q2" ->
         Dict.get (_queries self') other = Dict.get (_queries one_query) other.
Proof.
  split; [vm_compute; reflexivity|].
  apply (addQuerySlot_creates_entry one_query "q2" "Saving" 8%nat).
  vm_compute; reflexivity.
Defined.

(** C6. A progress callback for a tracked id: [_progressSlot] returns, the
    entry's current and maximum progress are the given values, its
    explanation text and cancel handle are as before, it has the same
    fields, and no other entry changes. *)
Theorem progressSlot_updates_entry self query_id current maximum query :
  wf self = true ->
  Dict.get (_queries self) query_id = Some query ->
  exists self' query',
    _progressSlot query_id current maximum self = Some self'
    /\ Dict.get (_queries self') query_id = Some query'
    /\ Dict.get query' "current" = Some (PyInt current)
    /\ Dict.get query' "maximum" = Some (PyInt maximum)
    /\ Dict.get query' "explanation" = Dict.get query "explanation"
    /\ Dict.get query' "response" = Dict.get query "response"
    /\ Dict.keys query' = Dict.keys query
    /\ forall other, other <> query_id ->
         Dict.get (_queries self') other = Dict.get (_queries self) other.
Proof.
  intros H G. apply wf_split in H as [D E].
  unfold _progressSlot, Dict.contains. rewrite G. simpl.
  rewrite DictFacts.get_set_eq. simpl.
  destruct (is_query_inv query (data_model_query _ _ _ D G)) as (e & c & m & r & ->).
  simpl.
  set (q' := [("explanation", PyStr e); ("current", PyInt current);
              ("maximum", PyInt maximum); ("response", PyReply r)]).
  set (s2 := set_queries _ _).
  assert (W2 : wf s2 = true).
  { apply wf_split. split; [|exact E].
    unfold s2. apply data_model_set with (q := q'); [|reflexivity].
    apply (data_model_set self query_id); [exact D | reflexivity]. }
  destruct (show_total s2 W2) as [s' S]. exists s', q'. split; [exact S|].
  destruct (show_frame _ _ S) as (-> & _). unfold s2. simpl.
  split; [apply DictFacts.get_set_eq|].
  repeat (split; [reflexivity|]).
  intros other N. rewrite !DictFacts.get_set_neq by congruence. reflexivity.
Qed.

Lemma progressSlot_updates_entry_witness :
  wf one_query = true /\
  Dict.get (_queries one_query) "q1" =
    Some [("explanation", PyStr "Loading"); ("current", PyInt 0);
          ("maximum", PyInt 0); ("response", PyReply 7%nat)] /\
  exists self' query',
    _progressSlot "q1" 5 10 one_query = Some self'
    /\ Dict.get (_queries self') "q1" = Some query'
    /\ Dict.get query' "current" = Some (PyInt 5)
    /\ Dict.get query' "maximum" = Some (PyInt 10)
    /\ Dict.get query' "explanation" = Some (PyStr "Loading")
    /\ Dict.get query' "response" = Some (PyReply 7%nat)
    /\ Dict.keys query' = ["explanation"; "current"; "maximum"; "response"]
    /\ forall other, other <> "q1" ->
         Dict.get (_queries self') other = Dict.get (_queries one_query) other.
Proof.
  split; [vm_compute; reflexivity|]. split; [vm_compute; reflexivity|].
  apply (progressSlot_updates_entry one_query "q1" 5 10
           [("explanation", PyStr "Loading"); ("current", PyInt 0);
            ("maximum", PyInt 0); ("response", PyReply 7%nat)]);
    vm_compute; reflexivity.
Defined.

(** C3. A completion callback for a tracked id: [_removeQuerySlot] returns,
    the entry is gone and every other entry is as before; and when the
    collection has become empty, the controller's dialog reference is
    cleared and the dialog it held is canceled and scheduled for deletion. *)
Theorem removeQuerySlot_removes_entry self query_id :
  wf self = true ->
  Dict.contains (_queries self) query_id = true ->
  exists self',
    _removeQuerySlot query_id self = Some self'
    /\ _queries self' = Dict.del (_queries self) query_id
    /\ Dict.get (_queries self') query_id = None
    /\ (forall other, other <> query_id ->
          Dict.get (_queries self') other = Dict.get (_queries self) other)
    /\ (Dict.len (_queries self') = 0 ->
        _progress_dialog self' = None
        /\ forall d, _progress_dialog self = Some d ->
             exists w, widget self' d = Some w
                       /\ wasCanceled w = true /\ deleted w = true).
Proof.
  intros H C. apply wf_split in H as [D E].
  unfold _removeQuerySlot. simpl. rewrite C. simpl.
  set (s1 := set_queries _ _).
  assert (Q1 : _queries s1 = Dict.del (_queries self) query_id) by reflexivity.
  assert (W1 : wf s1 = true).
  { apply wf_split. split; [|exact E].
    apply (data_model_del
             (set_finished_query_during_display
                (_finished_query_during_display self + 1) self)).
    exact D. }
  assert (Frame : forall self', _queries self' = _queries s1 ->
            _queries self' = Dict.del (_queries self) query_id
            /\ Dict.get (_queries self') query_id = None
            /\ (forall other, other <> query_id ->
                  Dict.get (_queries self') other = Dict.get (_queries self) other)).
  { intros self' Heq. rewrite Heq, Q1. split; [reflexivity|]. split.
    - apply DictFacts.get_del_eq.
    - intros other N. apply DictFacts.get_del_neq. congruence. }
  destruct (Z.eqb_spec (Dict.len (Dict.del (_queries self) query_id)) 0) as [L|L].
  - exists (hide s1). split; [reflexivity|].
    destruct (hide_frame s1) as (HQ & _ & HP & _).
    destruct (Frame _ HQ) as (F1 & F2 & F3).
    do 3 (split; [assumption|]). intros _. split; [exact HP|].
    intros d P. unfold dialog_exists in E. rewrite P in E.
    apply Nat.ltb_lt in E.
    destruct (nth_error (widgets self) d) as [w|] eqn:W;
      [|apply nth_error_None in W; lia].
    exists (deleteLater (cancel w)).
    unfold hide. replace (_progress_dialog s1) with (Some d) by (symmetry; exact P).
    rewrite on_dialog_compose, on_dialog_widget_eq.
    unfold widget. simpl. rewrite W. simpl. auto.
  - destruct (show_total s1 W1) as [s' S]. exists s'. split; [exact S|].
    destruct (show_frame _ _ S) as (SQ & _).
    destruct (Frame _ SQ) as (F1 & F2 & F3).
    do 3 (split; [assumption|]). intros Z. rewrite F1 in Z. contradiction.
Qed.

Lemma removeQuerySlot_removes_entry_witness :
  wf one_query = true /\
  Dict.contains (_queries one_query) "q1" = true /\
  exists self',
    _removeQuerySlot "q1" one_query = Some self'
    /\ _queries self' = Dict.del (_queries one_query) "q1"
    /\ Dict.get (_queries self') "q1" = None
    /\ (forall other, other <> "q1" ->
          Dict.get (_queries self') other = Dict.get (_queries one_query) other)
    /\ (Dict.len (_queries self') = 0 ->
        _progress_dialog self' = None
        /\ forall d, _progress_dialog one_query = Some d ->
             exists w, widget self' d = Some w
                       /\ wasCanceled w = true /\ deleted w = true).
Proof.
  split; [vm_compute; reflexivity|]. split; [vm_compute; reflexivity|].
  apply (removeQuerySlot_removes_entry one_query "q1"); vm_compute; reflexivity.
Defined.

(** The states of the samples are states a controller gets into. *)
Lemma one_query_reachable : reachable one_query.
Proof.
  apply (reach_step (__init__ 1000)
           (Ev_call (Call_addQuerySlot "q1" "Loading" 7%nat))).
  - apply reach_init.
  - vm_compute. reflexivity.
Qed.

Lemma canceled_one_query_reachable : reachable canceled_one_query.
Proof.
  apply (reach_step one_query (Ev_user_cancel 0)).
  - apply one_query_reachable.
  - vm_compute. reflexivity.
Qed.

(** C9, as stated, fails: with one query tracked and the dialog canceled by
    the user, a completion callback for an id that is not tracked leaves
    the finished-query counter at 0 instead of one higher, because [show]
    then builds a new dialog and resets the counter. *)
Lemma removeQuerySlot_untracked_counter_reset :
  reachable canceled_one_query
  /\ Dict.contains (_queries canceled_one_query) "q9" = false
  /\ _finished_query_during_display canceled_one_query = 0
  /\ exists self',
       _removeQuerySlot "q9" canceled_one_query = Some self'
       /\ _finished_query_during_display self' = 0
       /\ _finished_query_during_display self'
          <> _finished_query_during_display canceled_one_query + 1.
Proof.
  split; [apply canceled_one_query_reachable|].
  split; [vm_compute; reflexivity|].
  split; [vm_compute; reflexivity|].
  eexists. split; [vm_compute; reflexivity|].
  split; [reflexivity|]. vm_compute. discriminate.
Qed.

(** C9, amended. For an id that is not tracked, [_progressSlot] changes
    nothing at all, and [_removeQuerySlot] returns with the collection as
    it was.  When the collection is empty it hides the dialog: the result
    is [hide] of the state with the counter one higher, so the dialog
    reference is cleared, the dialog that was held is canceled, hidden and
    scheduled for deletion, and the finished-query counter is one higher.
    When the collection is not empty the result is that of [show] on the
    state with the counter one higher: if a dialog that was not canceled is
    held, that dialog is kept and the counter is one higher; if [show] has
    to build a new dialog, the counter is 0. *)
Theorem untracked_query_frame self query_id :
  wf self = true ->
  Dict.contains (_queries self) query_id = false ->
  (forall current maximum,
     _progressSlot query_id current maximum self = Some self)
  /\ exists self',
       _removeQuerySlot query_id self = Some self'
       /\ _queries self' = _queries self
       /\ (Dict.len (_queries self) = 0 ->
           self' = hide (set_finished_query_during_display
                           (_finished_query_during_display self + 1) self)
           /\ _progress_dialog self' = None
           /\ _finished_query_during_display self'
              = _finished_query_during_display self + 1
           /\ forall d, _progress_dialog self = Some d ->
                exists w, widget self' d = Some w
                          /\ wasCanceled w = true /\ deleted w = true
                          /\ visible w = false)
       /\ (Dict.len (_queries self) <> 0 ->
           show (set_finished_query_during_display
                   (_finished_query_during_display self + 1) self) = Some self')
       /\ (Dict.len (_queries self) <> 0 ->
           no_usable_dialog self = Some false ->
           _progress_dialog self' = _progress_dialog self
           /\ _finished_query_during_display self'
              = _finished_query_during_display self + 1)
       /\ (Dict.len (_queries self) <> 0 ->
           no_usable_dialog self = Some true ->
           _finished_query_during_display self' = 0).
Proof.
  intros H C. split.
  { intros current maximum. unfold _progressSlot. now rewrite C. }
  apply wf_split in H as [D E].
  unfold _removeQuerySlot. simpl. rewrite C.
  set (s1 := set_finished_query_during_display _ self).
  assert (N1 : no_usable_dialog s1 = no_usable_dialog self) by reflexivity.
  destruct (Z.eqb_spec (Dict.len (_queries s1)) 0) as [L|L].
  - exists (hide s1). split; [reflexivity|].
    destruct (hide_frame s1) as (HQ & HF & HP & _).
    split; [exact HQ|]. split.
    { intros _. split; [reflexivity|]. split; [exact HP|]. split; [exact HF|].
      intros d P. unfold dialog_exists in E. rewrite P in E.
      apply Nat.ltb_lt in E.
      destruct (nth_error (widgets self) d) as [w|] eqn:W;
        [|apply nth_error_None in W; lia].
      exists (deleteLater (cancel w)).
      unfold hide. replace (_progress_dialog s1) with (Some d) by (symmetry; exact P).
      rewrite on_dialog_compose, on_dialog_widget_eq.
      unfold widget. simpl. rewrite W. simpl. auto. }
    split; [intros L'; simpl in L; contradiction|].
    split; intros L'; simpl in L; contradiction.
  - assert (W1 : wf s1 = true) by (apply wf_split; split; assumption).
    destruct (show_total s1 W1) as [s' S]. exists s'. split; [exact S|].
    destruct (show_frame _ _ S) as (SQ & _). split; [exact SQ|].
    split; [intros L'; simpl in L; contradiction|].
    split; [intros _; exact S|].
    destruct (show_shape _ _ S)
      as [(Fresh & f & _ & ->)|(d & w & f & P & Wd & Cd & _ & ->)].
    + split; [rewrite <- N1, Fresh; discriminate|]. reflexivity.
    + split; [intros _ _; split; reflexivity|].
      intros _. rewrite <- N1. unfold no_usable_dialog.
      rewrite P, Wd. simpl. rewrite Cd. discriminate.
Qed.

Lemma untracked_query_frame_witness :
  wf shown_empty = true /\
  Dict.contains (_queries shown_empty) "q9" = false /\
  (forall current maximum,
     _progressSlot "q9" current maximum shown_empty = Some shown_empty)
  /\ exists self',
       _removeQuerySlot "q9" shown_empty = Some self'
       /\ _queries self' = _queries shown_empty
       /\ (Dict.len (_queries shown_empty) = 0 ->
           self' = hide (set_finished_query_during_display
                           (_finished_query_during_display shown_empty + 1)
                           shown_empty)
           /\ _progress_dialog self' = None
           /\ _finished_query_during_display self'
              = _finished_query_during_display shown_empty + 1
           /\ forall d, _progress_dialog shown_empty = Some d ->
                exists w, widget self' d = Some w
                          /\ wasCanceled w = true /\ deleted w = true
                          /\ visible w = false)
       /\ (Dict.len (_queries shown_empty) <> 0 ->
           show (set_finished_query_during_display
                   (_finished_query_during_display shown_empty + 1) shown_empty)
           = Some self')
       /\ (Dict.len (_queries shown_empty) <> 0 ->
           no_usable_dialog shown_empty = Some false ->
           _progress_dialog self' = _progress_dialog shown_empty
           /\ _finished_query_during_display self'
              = _finished_query_during_display shown_empty + 1)
       /\ (Dict.len (_queries shown_empty) <> 0 ->
           no_usable_dialog shown_empty = Some true ->
           _finished_query_during_display self' = 0).
Proof.
  split; [vm_compute; reflexivity|]. split; [vm_compute; reflexivity|].
  apply (untracked_query_frame shown_empty "q9"); vm_compute; reflexivity.
Defined.

(** The three cases on samples: the dialog of a controller without
    queries is canceled and scheduled for deletion; a dialog in use is kept
    and the counter goes up; after the user's cancel a new dialog is built
    and the counter is 0. *)
Example removeQuerySlot_untracked_hides :
  option_map (fun s => (_progress_dialog s, _finished_query_during_display s,
                        option_map (fun w => (wasCanceled w, deleted w, visible w))
                                   (widget s 0)))
             (_removeQuerySlot "q9" shown_empty)
  = Some (None, 1, Some (true, true, false)).
Proof. vm_compute. reflexivity. Qed.

Example removeQuerySlot_untracked_in_use :
  option_map (fun s => (_progress_dialog s, _finished_query_during_display s,
                        Dict.keys (_queries s)))
             (_removeQuerySlot "q9" one_query)
  = Some (Some 0%nat, 1, ["q1"]).
Proof. vm_compute. reflexivity. Qed.

Example removeQuerySlot_untracked_after_cancel :
  option_map (fun s => (_progress_dialog s, _finished_query_during_display s,
                        Dict.keys (_queries s)))
             (_removeQuerySlot "q9" canceled_one_query)
  = Some (Some 1%nat, 0, ["q1"]).
Proof. vm_compute. reflexivity. Qed.

(** ** Cancellation *)

Lemma abort_all_spec queries self :
  forallb is_query queries = true ->
  abort_all queries self =
    Some (set_aborted
            (aborted self
             ++ flat_map (fun query => match response_of query with
                                       | Some r => [r]
                                       | None => []
                                       end) queries) self).
Proof.
  revert self. induction queries as [|q qs IH]; intros self F; simpl.
  - rewrite app_nil_r. now destruct self.
  - simpl in F. apply andb_true_iff in F as [Q F].
    destruct (is_query_inv q Q) as (e & c & m & r & ->).
    unfold response_of. simpl. rewrite IH by exact F.
    unfold abort, set_aborted. simpl. now rewrite <- app_assoc.
Qed.

Lemma tracked_reply_in self query_id query r :
  Dict.get (_queries self) query_id = Some query ->
  Dict.get query "response" = Some (PyReply r) ->
  In r (tracked_replies self).
Proof.
  intros G R. unfold tracked_replies. apply in_flat_map.
  exists query. split.
  - apply DictFacts.get_some_in in G. unfold Dict.values.
    apply in_map_iff. now exists (query_id, query).
  - unfold response_of. rewrite R. simpl. now left.
Qed.

(** C1, as stated, fails: with the default setting of
    [_allow_cancel_query] the cancellation callback aborts nothing, although
    a query with a response is tracked. *)
Lemma cancelSlot_not_allowed_aborts_nothing :
  reachable one_query
  /\ Dict.get (_queries one_query) "q1" =
       Some [("explanation", PyStr "Loading"); ("current", PyInt 0);
             ("maximum", PyInt 0); ("response", PyReply 7%nat)]
  /\ exists self',
       _cancelSlot one_query = Some self' /\ ~ In 7%nat (aborted self').
Proof.
  split; [apply one_query_reachable|].
  split; [vm_compute; reflexivity|].
  exists one_query. split; [vm_compute; reflexivity|].
  vm_compute. tauto.
Qed.

(** C1, amended. The cancellation callback returns; when
    [_allow_cancel_query] is set it calls abort() on the response of every
    tracked query, once each and in the order of the collection, and
    changes nothing else; when it is not set it changes nothing. *)
Theorem cancelSlot_forwards_abort self :
  data_model self = true ->
  exists self',
    _cancelSlot self = Some self'
    /\ (_allow_cancel_query self = true ->
        self' = set_aborted (aborted self ++ tracked_replies self) self
        /\ forall query_id query r,
             Dict.get (_queries self) query_id = Some query ->
             Dict.get query "response" = Some (PyReply r) ->
             In r (aborted self'))
    /\ (_allow_cancel_query self = false -> self' = self).
Proof.
  intros D. unfold _cancelSlot.
  destruct (_allow_cancel_query self) eqn:A.
  - unfold data_model in D. apply andb_true_iff in D as [_ F].
    rewrite (abort_all_spec _ self F). eexists. split; [reflexivity|].
    split; [|discriminate]. intros _. split; [reflexivity|].
    intros query_id query r G R. simpl. apply in_or_app. right.
    eapply tracked_reply_in; eauto.
  - exists self. split; [reflexivity|]. split; [discriminate | reflexivity].
Qed.

Lemma cancelSlot_forwards_abort_witness :
  data_model (setAllowCancelQuery true two_queries) = true /\
  exists self',
    _cancelSlot (setAllowCancelQuery true two_queries) = Some self'
    /\ (_allow_cancel_query (setAllowCancelQuery true two_queries) = true ->
        self' = set_aborted
                  (aborted (setAllowCancelQuery true two_queries)
                   ++ tracked_replies (setAllowCancelQuery true two_queries))
                  (setAllowCancelQuery true two_queries)
        /\ forall query_id query r,
             Dict.get (_queries (setAllowCancelQuery true two_queries)) query_id
               = Some query ->
             Dict.get query "response" = Some (PyReply r) ->
             In r (aborted self'))
    /\ (_allow_cancel_query (setAllowCancelQuery true two_queries) = false ->
        self' = setAllowCancelQuery true two_queries).
Proof.
  split; [vm_compute; reflexivity|].
  apply (cancelSlot_forwards_abort (setAllowCancelQuery true two_queries)).
  vm_compute; reflexivity.
Defined.

Example cancelSlot_two_queries :
  option_map aborted (_cancelSlot (setAllowCancelQuery true two_queries))
  = Some [7%nat; 8%nat].
Proof. vm_compute. reflexivity. Qed.

(** ** The data model is kept *)

Lemma cancelSlot_shape self :
  data_model self = true -> exists rs, _cancelSlot self = Some (set_aborted rs self).
Proof.
  intros D. unfold _cancelSlot. destruct (_allow_cancel_query self).
  - unfold data_model in D. apply andb_true_iff in D as [_ F].
    rewrite (abort_all_spec _ self F). eauto.
  - exists (aborted self). now destruct self.
Qed.

Lemma addQuerySlot_total_wf self query_id explanation response :
  wf self = true ->
  exists self', _addQuerySlot query_id explanation response self = Some self'
                /\ wf self' = true.
Proof.
  intros H. apply wf_split in H as [D E]. unfold _addQuerySlot.
  set (s1 := set_queries _ self).
  assert (W1 : wf s1 = true).
  { apply wf_split. split; [apply data_model_set; auto | exact E]. }
  destruct (show_total s1 W1) as [s' S]. exists s'. split; [exact S|].
  eapply show_wf; eauto.
Qed.

Lemma removeQuerySlot_total_wf self query_id :
  wf self = true ->
  exists self', _removeQuerySlot query_id self = Some self' /\ wf self' = true.
Proof.
  intros H. apply wf_split in H as [D E]. unfold _removeQuerySlot.
  set (s0 := set_finished_query_during_display _ self).
  set (s1 := if Dict.contains (_queries s0) query_id then _ else s0).
  assert (D1 : data_model s1 = true).
  { unfold s1. destruct (Dict.contains _ _); [|exact D].
    apply (data_model_del s0). exact D. }
  assert (E1 : dialog_exists s1 = true).
  { unfold s1. destruct (Dict.contains _ _); exact E. }
  destruct (Dict.len (_queries s1) =? 0).
  - exists (hide s1). split; [reflexivity|]. now apply hide_wf.
  - assert (W1 : wf s1 = true) by (apply wf_split; split; assumption).
    destruct (show_total s1 W1) as [s' S]. exists s'. split; [exact S|].
    eapply show_wf; eauto.
Qed.

Lemma progressSlot_total_wf self query_id current maximum :
  wf self = true ->
  exists self', _progressSlot query_id current maximum self = Some self'
                /\ wf self' = true.
Proof.
  intros H. pose proof H as H0. apply wf_split in H as [D E].
  unfold _progressSlot, Dict.contains.
  destruct (Dict.get (_queries self) query_id) as [query|] eqn:G; [|eauto].
  simpl. rewrite DictFacts.get_set_eq. simpl.
  destruct (is_query_inv query (data_model_query _ _ _ D G)) as (e & c & m & r & ->).
  simpl. set (s2 := set_queries _ _).
  assert (W2 : wf s2 = true).
  { apply wf_split. split; [|exact E].
    unfold s2. apply data_model_set; [|reflexivity].
    apply (data_model_set self query_id); [exact D | reflexivity]. }
  destruct (show_total s2 W2) as [s' S]. exists s'. split; [exact S|].
  eapply show_wf; eauto.
Qed.

Lemma cancelSlot_total_wf self :
  wf self = true -> exists self', _cancelSlot self = Some self' /\ wf self' = true.
Proof.
  intros H. pose proof H as H0. apply wf_split in H as [D E].
  destruct (cancelSlot_shape self D) as [rs ->]. eexists. split; [reflexivity|].
  exact H0.
Qed.

Lemma exec_total_wf c self :
  wf self = true -> exists self', exec c self = Some self' /\ wf self' = true.
Proof.
  intros H. destruct c; simpl.
  - now apply addQuerySlot_total_wf.
  - now apply removeQuerySlot_total_wf.
  - now apply progressSlot_total_wf.
  - now apply cancelSlot_total_wf.
  - destruct (show_total self H) as [s' S]. exists s'. split; [exact S|].
    eapply show_wf; eauto.
  - exists (hide self). split; [reflexivity|]. apply hide_wf.
    now apply wf_split in H.
Qed.

Lemma data_model_spec self :
  data_model self = true <->
  NoDup (Dict.keys (_queries self))
  /\ forall query,
       In query (Dict.values (_queries self)) ->
       exists e c m r,
         query = [("explanation", PyStr e); ("current", PyInt c);
                  ("maximum", PyInt m); ("response", PyReply r)].
Proof.
  unfold data_model. rewrite andb_true_iff, DictFacts.unique_keys_NoDup, forallb_forall.
  split; intros [U F]; split; auto.
  - intros q I. apply is_query_inv. now apply F.
  - intros q I. destruct (F q I) as (e & c & m & r & ->). reflexivity.
Qed.

(** C7. Each of the six operations, started in a state where the collection
    maps query ids to records with exactly the four fields explanation,
    current, maximum and response (a str, two ints and a reply), returns
    and leaves the collection such a mapping. *)
Theorem operations_preserve_data_model c self :
  data_model self = true -> dialog_exists self = true ->
  exists self',
    exec c self = Some self'
    /\ data_model self' = true
    /\ NoDup (Dict.keys (_queries self'))
    /\ forall query_id query,
         Dict.get (_queries self') query_id = Some query ->
         exists e cur m r,
           query = [("explanation", PyStr e); ("current", PyInt cur);
                    ("maximum", PyInt m); ("response", PyReply r)].
Proof.
  intros D E.
  destruct (exec_total_wf c self) as (s' & X & W); [apply wf_split; auto|].
  exists s'. split; [exact X|].
  apply wf_split in W as [D' _]. split; [exact D'|].
  pose proof D' as D2. apply data_model_spec in D2 as [U F]. split; [exact U|].
  intros query_id query G. apply is_query_inv.
  eapply data_model_query; eauto.
Qed.

Lemma operations_preserve_data_model_witness :
  data_model two_queries = true /\ dialog_exists two_queries = true /\
  exists self',
    exec (Call_removeQuerySlot "q1") two_queries = Some self'
    /\ data_model self' = true
    /\ NoDup (Dict.keys (_queries self'))
    /\ forall query_id query,
         Dict.get (_queries self') query_id = Some query ->
         exists e cur m r,
           query = [("explanation", PyStr e); ("current", PyInt cur);
                    ("maximum", PyInt m); ("response", PyReply r)].
Proof.
  split; [vm_compute; reflexivity|]. split; [vm_compute; reflexivity|].
  apply (operations_preserve_data_model (Call_removeQuerySlot "q1") two_queries);
    vm_compute; reflexivity.
Defined.

(** ** The context manager *)

(** C8. Whatever options are passed and whatever the block does, when the
    block completes normally the context manager returns, every setting
    whose option was passed has the value it had before the block, and a
    setting whose option was not passed is touched neither on entry nor on
    exit; nothing but the four settings is changed by the context manager. *)
Theorem context_restores_settings kwargs block self self1 :
  block (snd (context_enter kwargs self)) = Some self1 ->
  exists self',
    context kwargs block self = Some self'
    /\ (min_duration kwargs <> None ->
        _minimum_duration self' = _minimum_duration self)
    /\ (enable kwargs <> None -> _enable self' = _enable self)
    /\ (cancel_button_text kwargs <> None ->
        _cancel_button_text self' = _cancel_button_text self)
    /\ (allow_cancel_query kwargs <> None ->
        _allow_cancel_query self' = _allow_cancel_query self)
    /\ (min_duration kwargs = None ->
        _minimum_duration (snd (context_enter kwargs self)) = _minimum_duration self
        /\ _minimum_duration self' = _minimum_duration self1)
    /\ (enable kwargs = None ->
        _enable (snd (context_enter kwargs self)) = _enable self
        /\ _enable self' = _enable self1)
    /\ (cancel_button_text kwargs = None ->
        _cancel_button_text (snd (context_enter kwargs self))
          = _cancel_button_text self
        /\ _cancel_button_text self' = _cancel_button_text self1)
    /\ (allow_cancel_query kwargs = None ->
        _allow_cancel_query (snd (context_enter kwargs self))
          = _allow_cancel_query self
        /\ _allow_cancel_query self' = _allow_cancel_query self1)
    /\ _queries self' = _queries self1
    /\ _progress_dialog self' = _progress_dialog self1
    /\ _finished_query_during_display self' = _finished_query_during_display self1
    /\ widgets self' = widgets self1
    /\ _stimer self' = _stimer self1
    /\ aborted self' = aborted self1.
Proof.
  destruct kwargs as [[md|] [en|] [cbt|] [acq|]]; unfold context; simpl;
    intros B; rewrite B; simpl; eexists; (split; [reflexivity|]); simpl;
    repeat split; intros; auto; congruence.
Qed.

Lemma context_restores_settings_witness :
  sample_block (snd (context_enter sample_kwargs one_query))
    = Some (set_enable false (snd (context_enter sample_kwargs one_query)))
  /\ exists self',
    context sample_kwargs sample_block one_query = Some self'
    /\ (min_duration sample_kwargs <> None ->
        _minimum_duration self' = _minimum_duration one_query)
    /\ (enable sample_kwargs <> None -> _enable self' = _enable one_query)
    /\ (cancel_button_text sample_kwargs <> None ->
        _cancel_button_text self' = _cancel_button_text one_query)
    /\ (allow_cancel_query sample_kwargs <> None ->
        _allow_cancel_query self' = _allow_cancel_query one_query)
    /\ (min_duration sample_kwargs = None ->
        _minimum_duration (snd (context_enter sample_kwargs one_query))
          = _minimum_duration one_query
        /\ _minimum_duration self'
           = _minimum_duration
               (set_enable false (snd (context_enter sample_kwargs one_query))))
    /\ (enable sample_kwargs = None ->
        _enable (snd (context_enter sample_kwargs one_query)) = _enable one_query
        /\ _enable self'
           = _enable (set_enable false (snd (context_enter sample_kwargs one_query))))
    /\ (cancel_button_text sample_kwargs = None ->
        _cancel_button_text (snd (context_enter sample_kwargs one_query))
          = _cancel_button_text one_query
        /\ _cancel_button_text self'
           = _cancel_button_text
               (set_enable false (snd (context_enter sample_kwargs one_query))))
    /\ (allow_cancel_query sample_kwargs = None ->
        _allow_cancel_query (snd (context_enter sample_kwargs one_query))
          = _allow_cancel_query one_query
        /\ _allow_cancel_query self'
           = _allow_cancel_query
               (set_enable false (snd (context_enter sample_kwargs one_query))))
    /\ _queries self'
       = _queries (set_enable false (snd (context_enter sample_kwargs one_query)))
    /\ _progress_dialog self'
       = _progress_dialog
           (set_enable false (snd (context_enter sample_kwargs one_query)))
    /\ _finished_query_during_display self'
       = _finished_query_during_display
           (set_enable false (snd (context_enter sample_kwargs one_query)))
    /\ widgets self'
       = widgets (set_enable false (snd (context_enter sample_kwargs one_query)))
    /\ _stimer self'
       = _stimer (set_enable false (snd (context_enter sample_kwargs one_query)))
    /\ aborted self'
       = aborted (set_enable false (snd (context_enter sample_kwargs one_query))).
Proof.
  split; [reflexivity|].
  apply (context_restores_settings sample_kwargs sample_block one_query).
  reflexivity.
Defined.

Example context_sample :
  option_map (fun s => (_minimum_duration s, _enable s,
                        _cancel_button_text s, _allow_cancel_query s))
             (context sample_kwargs sample_block one_query)
  = Some (1000, false, EmptyString, false).
Proof. vm_compute. reflexivity. Qed.

(** ** The singleton accessor *)

Lemma instance_sets cls :
  _instance (snd (instance cls)) = Some (Some (fst (instance cls))).
Proof.
  unfold instance. destruct (_instance cls) as [[r|]|] eqn:I; simpl; auto.
Qed.

Lemma instance_known cls r :
  _instance cls = Some (Some r) -> instance cls = (r, cls).
Proof. unfold instance. now intros ->. Qed.

Lemma class_step_keeps_instance cls cls' r :
  class_step cls cls' -> _instance cls = Some (Some r) ->
  _instance cls' = Some (Some r).
Proof.
  intros S I. destruct S as [cls|cls r' m]; simpl; [|exact I].
  now rewrite (instance_known _ _ I).
Qed.

Lemma class_steps_keep_instance cls cls' r :
  class_steps cls cls' -> _instance cls = Some (Some r) ->
  _instance cls' = Some (Some r).
Proof.
  induction 1 as [cls|cls1 cls2 cls3 S _ IH]; intros I; [exact I|].
  apply IH. eapply class_step_keeps_instance; eauto.
Qed.

(** C10. [Progress.instance()] is a singleton accessor: a call made when
    the class has no instance yet constructs a Progress object and returns
    its reference; any later call, whatever calls of [instance()] and of
    methods of the objects came in between, returns the same reference and
    constructs nothing. *)
Theorem instance_singleton cls cls' :
  class_steps (snd (instance cls)) cls' ->
  fst (instance cls') = fst (instance cls)
  /\ snd (instance cls') = cls'
  /\ ((_instance cls = None \/ _instance cls = Some None) ->
      fst (instance cls) = List.length (objects cls)
      /\ objects (snd (instance cls)) = (objects cls ++ [__init__ 1000])%list
      /\ nth_error (objects (snd (instance cls))) (fst (instance cls))
         = Some (__init__ 1000)).
Proof.
  intros S.
  pose proof (class_steps_keep_instance _ _ _ S (instance_sets cls)) as I.
  rewrite (instance_known _ _ I). simpl. split; [reflexivity|].
  split; [reflexivity|].
  intros [N|N]; unfold instance; rewrite N; simpl;
    (split; [reflexivity|]); (split; [reflexivity|]);
    rewrite nth_error_app2, Nat.sub_diag by lia; reflexivity.
Qed.

Lemma instance_singleton_witness :
  class_steps (snd (instance (mkClass None [])))
    (mkClass (Some (Some 0%nat)) [hide (__init__ 1000)])
  /\ fst (instance (mkClass (Some (Some 0%nat)) [hide (__init__ 1000)]))
     = fst (instance (mkClass None []))
  /\ snd (instance (mkClass (Some (Some 0%nat)) [hide (__init__ 1000)]))
     = mkClass (Some (Some 0%nat)) [hide (__init__ 1000)]
  /\ ((_instance (mkClass None []) = None
       \/ _instance (mkClass None []) = Some None) ->
      fst (instance (mkClass None [])) = List.length (objects (mkClass None []))
      /\ objects (snd (instance (mkClass None [])))
         = (objects (mkClass None []) ++ [__init__ 1000])%list
      /\ nth_error (objects (snd (instance (mkClass None []))))
                   (fst (instance (mkClass None [])))
         = Some (__init__ 1000)).
Proof.
  assert (S : class_steps (snd (instance (mkClass None [])))
                (mkClass (Some (Some 0%nat)) [hide (__init__ 1000)])).
  { eapply steps_cons; [apply (step_instance (snd (instance (mkClass None []))))|].
    eapply steps_cons; [|apply steps_refl].
    apply (step_method (snd (instance (snd (instance (mkClass None []))))) 0 hide). }
  split; [exact S|].
  exact (instance_singleton (mkClass None [])
           (mkClass (Some (Some 0%nat)) [hide (__init__ 1000)]) S).
Defined.

(** ** A single dialog *)

Lemma good_frame self self' :
  _queries self' = _queries self -> widgets self' = widgets self ->
  _progress_dialog self' = _progress_dialog self ->
  good self -> good self'.
Proof.
  intros Q W P [H S]. split.
  - unfold wf, data_model, dialog_exists in *. now rewrite Q, W, P.
  - intros d w. unfold widget. rewrite W, P. apply S.
Qed.

Lemma good_on_dialog d f self :
  (forall w, wasCanceled w = true -> wasCanceled (f w) = true) ->
  good self -> good (on_dialog d f self).
Proof.
  intros M [H S]. split.
  - unfold wf, data_model, dialog_exists in *. simpl.
    now rewrite update_at_length.
  - intros d' w'. destruct (Nat.eq_dec d d') as [<-|N].
    + rewrite on_dialog_widget_eq.
      destruct (widget self d) as [w|] eqn:W; simpl; [|discriminate].
      intros [= <-] C. apply (S d w W).
      destruct (wasCanceled w) eqn:Cw; [|reflexivity].
      rewrite (M w Cw) in C. discriminate.
    + rewrite on_dialog_widget_neq by exact N. apply S.
Qed.

Lemma display_only_monotone f :
  display_only f -> forall w, wasCanceled w = true -> wasCanceled (f w) = true.
Proof. intros F w C. destruct (F w) as (-> & _). exact C. Qed.

Lemma good_hide self : good self -> good (hide self).
Proof.
  intros [H S]. split; [apply hide_wf; now apply wf_split in H|].
  unfold hide. destruct (_progress_dialog self) as [d0|] eqn:P; [|exact S].
  rewrite on_dialog_compose. intros d w.
  destruct (Nat.eq_dec d0 d) as [<-|N].
  - rewrite on_dialog_widget_eq. unfold widget. simpl.
    destruct (nth_error (widgets self) d0); simpl; [|discriminate].
    intros [= <-]. simpl. discriminate.
  - rewrite on_dialog_widget_neq by exact N. unfold widget. simpl.
    intros W C. specialize (S d w W C). congruence.
Qed.

Lemma good_show_create self :
  good self -> no_usable_dialog self = Some true ->
  good (snd (show_create self)).
Proof.
  intros [H S] N. apply wf_split in H as [D E]. split.
  - apply wf_split. split; [exact D|].
    unfold dialog_exists. simpl. rewrite length_app. simpl.
    apply Nat.ltb_lt. lia.
  - intros d w. unfold widget. simpl. intros W C.
    destruct (Nat.lt_ge_cases d (List.length (widgets self))) as [L|L].
    + rewrite nth_error_app1 in W by exact L.
      pose proof (S d w W C) as P. unfold no_usable_dialog in N.
      rewrite P in N. unfold widget in N. rewrite W in N. simpl in N. congruence.
    + destruct (Nat.eq_dec d (List.length (widgets self))) as [->|Ne]; [reflexivity|].
      rewrite nth_error_app2 in W by exact L.
      destruct (d - List.length (widgets self))%nat as [|k] eqn:K; [lia|].
      simpl in W. destruct k; discriminate.
Qed.

Lemma good_show self self' : good self -> show self = Some self' -> good self'.
Proof.
  intros G S.
  destruct (show_shape _ _ S) as [(N & f & F & ->)|(d & w & f & _ & _ & _ & F & ->)].
  - apply (good_frame (on_dialog (List.length (widgets self)) f
                         (snd (show_create self)))); try reflexivity.
    apply good_on_dialog; [apply display_only_monotone, F|].
    apply good_show_create; assumption.
  - apply good_on_dialog; [apply display_only_monotone, F | exact G].
Qed.

Lemma good_cancelSlot self self' : good self -> _cancelSlot self = Some self' -> good self'.
Proof.
  intros G C. pose proof G as [H _]. apply wf_split in H as [D _].
  destruct (cancelSlot_shape self D) as [rs R]. rewrite R in C. injection C as <-.
  eapply good_frame; [| | |exact G]; reflexivity.
Qed.

Lemma good_show_dialog self : good self -> good (_show_dialog self).
Proof.
  intros G. unfold _show_dialog.
  destruct (_progress_dialog self); [|exact G].
  destruct (_enable self); [|exact G].
  apply good_on_dialog; [|exact G]. intros w C. exact C.
Qed.

Lemma good_run_slot f self self' : good self -> run_slot f self = Some self' -> good self'.
Proof.
  intros G. destruct f; simpl.
  - now apply good_cancelSlot.
  - intros [= <-]. now apply good_show_dialog.
Qed.

Lemma good_run_slots fs self self' :
  good self -> run_slots fs self = Some self' -> good self'.
Proof.
  revert self. induction fs as [|f fs IH]; intros self G; simpl.
  - now intros [= <-].
  - destruct (run_slot f self) as [s1|] eqn:R; simpl; [|discriminate].
    apply IH. eapply good_run_slot; eauto.
Qed.

Lemma good_exec c self self' : good self -> exec c self = Some self' -> good self'.
Proof.
  intros G. destruct c; simpl.
  - unfold _addQuerySlot. apply good_show.
    destruct G as [H Sd]. split; [|exact Sd].
    apply wf_split in H as [D E]. apply wf_split.
    split; [now apply data_model_set | exact E].
  - unfold _removeQuerySlot.
    set (s0 := set_finished_query_during_display _ self).
    set (s1 := if Dict.contains (_queries s0) query_id then _ else s0).
    assert (G1 : good s1).
    { pose proof G as [H Sd]. apply wf_split in H as [D E]. split.
      - apply wf_split. unfold s1. destruct (Dict.contains _ _).
        + split; [apply (data_model_del s0); exact D | exact E].
        + split; assumption.
      - unfold s1. destruct (Dict.contains _ _); exact Sd. }
    destruct (Dict.len (_queries s1) =? 0).
    + intros [= <-]. now apply good_hide.
    + now apply good_show.
  - unfold _progressSlot, Dict.contains.
    destruct (Dict.get (_queries self) query_id) as [query|] eqn:Gq;
      [|now intros [= <-]].
    simpl. rewrite DictFacts.get_set_eq. simpl.
    pose proof G as [H Sd]. apply wf_split in H as [D E].
    destruct (is_query_inv query (data_model_query _ _ _ D Gq))
      as (e & c & m & r & ->).
    simpl. apply good_show. split; [|exact Sd].
    apply wf_split. split; [|exact E].
    apply data_model_set; [|reflexivity].
    apply (data_model_set self query_id); [exact D | reflexivity].
  - now apply good_cancelSlot.
  - now apply good_show.
  - intros [= <-]. now apply good_hide.
Qed.

Lemma context_enter_frame kwargs self :
  _queries (snd (context_enter kwargs self)) = _queries self
  /\ widgets (snd (context_enter kwargs self)) = widgets self
  /\ _progress_dialog (snd (context_enter kwargs self)) = _progress_dialog self.
Proof.
  destruct kwargs as [[md|] [en|] [cbt|] [acq|]]; simpl; auto.
Qed.

Lemma context_exit_frame kwargs locals self self' :
  context_exit kwargs locals self = Some self' ->
  _queries self' = _queries self /\ widgets self' = widgets self
  /\ _progress_dialog self' = _progress_dialog self.
Proof.
  unfold context_exit.
  destruct kwargs as [[md|] [en|] [cbt|] [acq|]];
    destruct locals as [[omd|] [oen|] [ocbt|] [oacq|]]; simpl;
    try discriminate; intros [= <-]; simpl; auto.
Qed.

Lemma good_handle e self self' : good self -> handle e self = Some self' -> good self'.
Proof.
  intros G. destruct e; simpl.
  - now apply good_exec.
  - unfold user_cancel. destruct (widget self d) as [w|]; simpl; [|discriminate].
    apply good_run_slots. apply good_on_dialog; [|exact G]. reflexivity.
  - unfold timeout. destruct (nth_error (_stimer self) i) as [[ms f]|].
    + apply good_run_slot. eapply good_frame; [| | |exact G]; reflexivity.
    + now intros [= <-].
  - intros [= <-]. eapply good_frame; [| | |exact G]; reflexivity.
  - intros [= <-]. eapply good_frame; [| | |exact G]; reflexivity.
  - intros [= <-]. destruct (context_enter_frame kwargs self) as (Q & W & P).
    eapply good_frame; eauto.
  - intros X. destruct (context_exit_frame _ _ _ _ X) as (Q & W & P).
    eapply good_frame; eauto.
Qed.

Lemma reachable_good self : reachable self -> good self.
Proof.
  induction 1 as [md|self e self' _ IH X].
  - split; [reflexivity|]. intros d w W. destruct d; discriminate.
  - eapply good_handle; eauto.
Qed.






Lemma show_create_widget self :
  exists w0,
    widget (snd (show_create self)) (List.length (widgets self)) = Some w0
    /\ labelText w0 = "Waiting for server response"
    /\ windowModality w0 = ApplicationModal
    /\ windowTitle w0 = "Please wait"
    /\ minimumDuration w0 = _minimum_duration self
    /\ canceled w0 = [Slot_cancelSlot]
    /\ minimum w0 = 0 /\ maximum w0 = 0 /\ value w0 = None
    /\ wasCanceled w0 = false /\ visible w0 = false /\ deleted w0 = false
    /\ cancelButton w0
       = if 0 <? Z.of_nat (String.length (_cancel_button_text self))
         then Some (_cancel_button_text self) else None.
Proof.
  unfold widget. simpl. rewrite nth_error_app2, Nat.sub_diag by lia. simpl.
  eexists. split; [reflexivity|].
  destruct (0 <? _); simpl; repeat split; reflexivity.
Qed.






Example show_twice_one_dialog :
  option_map (fun s => (_progress_dialog s, List.length (widgets s), live_dialogs s))
             (bind (show (__init__ 1000)) show)
  = Some (Some 0%nat, 1%nat, [0%nat]).
Proof. vm_compute. reflexivity. Qed.

Example show_after_cancel_new_dialog :
  option_map (fun s => (_progress_dialog s, List.length (widgets s), live_dialogs s))
             (show canceled_one_query)
  = Some (Some 1%nat, 2%nat, [1%nat]).
Proof. vm_compute. reflexivity. Qed.

(** The single shot of the first dialog brings it up; with the controller
    switched off it does not. *)
Example single_shot_brings_up_dialog :
  option_map (fun s => (option_map visible (widget s 0), _stimer s))
             (bind (show (__init__ 1000)) (timeout 0))
  = Some (Some true, []).
Proof. vm_compute. reflexivity. Qed.

Example single_shot_disabled :
  option_map (fun s => (option_map visible (widget s 0), _stimer s))
             (bind (show (set_enable false (__init__ 1000))) (timeout 0))
  = Some (Some false, []).
Proof. vm_compute. reflexivity. Qed.


(** * Further properties of the controller *)

(** ** What [show] puts on the dialog *)

Lemma show_label_result d self q e :
  first_query self = Some q -> Dict.get q "explanation" = Some (PyStr e) ->
  show_label d self = Some (on_dialog d (setLabelText e) self).
Proof.
  intros Q E. unfold show_label.
  assert (L : (0 <? Dict.len (_queries self)) = true).
  { apply Z.ltb_lt. unfold first_query, Dict.values, Dict.len in *.
    destruct (_queries self); simpl in *; [discriminate | lia]. }
  rewrite L, Q. simpl. rewrite E. reflexivity.
Qed.

Lemma show_label_empty d self :
  _queries self = [] -> show_label d self = Some self.
Proof. intros E. unfold show_label. now rewrite E. Qed.

Lemma first_query_on_dialog d f self :
  first_query (on_dialog d f self) = first_query self.
Proof. reflexivity. Qed.

Lemma first_query_explanation self q :
  data_model self = true -> first_query self = Some q ->
  exists e, Dict.get q "explanation" = Some (PyStr e).
Proof.
  intros D Q. destruct (is_query_inv q (data_model_first _ _ D Q))
    as (e & c & m & r & ->). now exists e.
Qed.

(** X1. After [show], when at least one query is tracked, the label of the
    controller's dialog is the explanation of the first query of the
    collection, whether the dialog is new or reused. *)
Theorem show_labels_first_query self q :
  wf self = true -> first_query self = Some q ->
  exists self' d w e,
    show self = Some self'
    /\ _progress_dialog self' = Some d /\ widget self' d = Some w
    /\ Dict.get q "explanation" = Some (PyStr e) /\ labelText w = e.
Proof.
  intros H Q. pose proof H as H0. apply wf_split in H as [D E].
  destruct (first_query_explanation _ _ D Q) as [e Ex].
  destruct (no_usable_dialog_total self E) as [[|] N].
  - rewrite show_fresh by exact N.
    rewrite (show_label_result _ _ q e) by assumption. simpl.
    destruct (show_create_widget self) as (w0 & W0 & _).
    eexists _, _, (setLabelText e w0), e. split; [reflexivity|].
    split; [reflexivity|]. split; [|auto].
    change (widget (on_dialog (List.length (widgets self)) (setLabelText e)
                      (snd (show_create self))) (List.length (widgets self))
            = Some (setLabelText e w0)).
    rewrite on_dialog_widget_eq, W0. reflexivity.
  - unfold no_usable_dialog in N.
    destruct (_progress_dialog self) as [d|] eqn:P; [|discriminate].
    destruct (widget self d) as [w|] eqn:W; simpl in N; [|discriminate].
    injection N as C. rewrite (show_existing d w) by assumption.
    destruct (show_update_total d self D) as [s1 U]. rewrite U. simpl.
    destruct (show_update_on_dialog _ _ _ U) as (f & _ & ->).
    rewrite (show_label_result _ _ q e) by assumption.
    eexists _, d, (setLabelText e (f w)), e. split; [reflexivity|].
    split; [exact P|]. split; [|auto].
    rewrite !on_dialog_widget_eq, W. reflexivity.
Qed.

Lemma show_labels_first_query_witness :
  wf two_queries = true
  /\ first_query two_queries
     = Some [("explanation", PyStr "Loading"); ("current", PyInt 5);
             ("maximum", PyInt 10); ("response", PyReply 7%nat)]
  /\ exists self' d w e,
       show two_queries = Some self'
       /\ _progress_dialog self' = Some d /\ widget self' d = Some w
       /\ Dict.get [("explanation", PyStr "Loading"); ("current", PyInt 5);
                    ("maximum", PyInt 10); ("response", PyReply 7%nat)]
                   "explanation" = Some (PyStr e)
       /\ labelText w = e.
Proof.
  split; [vm_compute; reflexivity|]. split; [vm_compute; reflexivity|].
  apply (show_labels_first_query two_queries); vm_compute; reflexivity.
Defined.

(** X2. A dialog that [show] constructs is application modal, is titled
    "Please wait", has the controller's minimum duration, has the range 0..0
    and no value (the progress of the queries is not put on it before the
    next [show]), has its canceled signal connected to [_cancelSlot], and
    has a cancel button with the controller's cancel button text exactly
    when that text is not empty. *)
Theorem show_new_dialog_configuration self :
  wf self = true -> no_usable_dialog self = Some true ->
  exists self' w,
    show self = Some self'
    /\ _progress_dialog self' = Some (List.length (widgets self))
    /\ widget self' (List.length (widgets self)) = Some w
    /\ windowModality w = ApplicationModal
    /\ windowTitle w = "Please wait"
    /\ minimumDuration w = _minimum_duration self
    /\ canceled w = [Slot_cancelSlot]
    /\ minimum w = 0 /\ maximum w = 0 /\ value w = None
    /\ (_cancel_button_text self = EmptyString -> cancelButton w = None)
    /\ (_cancel_button_text self <> EmptyString ->
        cancelButton w = Some (_cancel_button_text self))
    /\ (_queries self = [] -> labelText w = "Waiting for server response").
Proof.
  intros H N. apply wf_split in H as [D E].
  rewrite show_fresh by exact N.
  destruct (show_create_widget self)
    as (w0 & W0 & Lb & Mo & Ti & Md & Ca & Mi & Ma & Va & _ & _ & _ & Cb).
  assert (Button : (_cancel_button_text self = EmptyString -> cancelButton w0 = None)
                   /\ (_cancel_button_text self <> EmptyString ->
                       cancelButton w0 = Some (_cancel_button_text self))).
  { rewrite Cb. destruct (_cancel_button_text self) as [|a t]; simpl.
    - split; [reflexivity | congruence].
    - split; [discriminate | reflexivity]. }
  destruct Button as [B1 B2].
  destruct (first_query (snd (show_create self))) as [q|] eqn:Q.
  - destruct (first_query_explanation (snd (show_create self)) q D Q) as [e Ex].
    rewrite (show_label_result _ _ q e) by assumption. simpl.
    eexists _, (setLabelText e w0). split; [reflexivity|].
    split; [reflexivity|]. split.
    { change (widget (on_dialog (List.length (widgets self)) (setLabelText e)
                        (snd (show_create self))) (List.length (widgets self))
              = Some (setLabelText e w0)).
      rewrite on_dialog_widget_eq, W0. reflexivity. }
    simpl. repeat (split; [assumption|]).
    intros Em. unfold first_query in Q. simpl in Q. rewrite Em in Q. discriminate.
  - assert (Em : _queries self = []).
    { unfold first_query, Dict.values in Q. simpl in Q.
      destruct (_queries self); [reflexivity | discriminate]. }
    rewrite show_label_empty by exact Em. simpl.
    eexists _, w0. split; [reflexivity|]. split; [reflexivity|].
    split; [exact W0|]. repeat (split; [assumption|]). auto.
Qed.

Lemma show_new_dialog_configuration_witness :
  wf (setCancelButtonText_ "Stop" canceled_one_query) = true
  /\ no_usable_dialog (setCancelButtonText_ "Stop" canceled_one_query) = Some true
  /\ exists self' w,
       show (setCancelButtonText_ "Stop" canceled_one_query) = Some self'
       /\ _progress_dialog self' = Some 1%nat
       /\ widget self' 1 = Some w
       /\ windowModality w = ApplicationModal
       /\ windowTitle w = "Please wait"
       /\ minimumDuration w = 1000
       /\ canceled w = [Slot_cancelSlot]
       /\ minimum w = 0 /\ maximum w = 0 /\ value w = None
       /\ ("Stop" = EmptyString -> cancelButton w = None)
       /\ ("Stop" <> EmptyString -> cancelButton w = Some "Stop")
       /\ (_queries (setCancelButtonText_ "Stop" canceled_one_query) = [] ->
           labelText w = "Waiting for server response").
Proof.
  split; [vm_compute; reflexivity|]. split; [vm_compute; reflexivity|].
  apply (show_new_dialog_configuration (setCancelButtonText_ "Stop" canceled_one_query));
    vm_compute; reflexivity.
Defined.

(** ** [hide] *)

(** X3. [hide] is idempotent, and without a dialog it does nothing. *)
Theorem hide_idempotent self :
  hide (hide self) = hide self
  /\ (_progress_dialog self = None -> hide self = self).
Proof.
  split.
  - unfold hide at 1. destruct (hide_frame self) as (_ & _ & -> & _). reflexivity.
  - intros P. unfold hide. now rewrite P.
Qed.

(** ** The collection *)

Lemma dict_del_set_absent {V : Type} (d : Dict.t V) k v :
  Dict.contains d k = false -> Dict.del (Dict.set d k v) k = d.
Proof.
  unfold Dict.contains, Dict.del.
  induction d as [|[k0 v0] d IH]; simpl.
  - intros _. now rewrite String.eqb_refl.
  - destruct (String.eqb k k0) eqn:E; simpl; [discriminate|].
    intros G. rewrite E. simpl. now rewrite IH.
Qed.

Lemma dict_contains_set {V : Type} (d : Dict.t V) k v :
  Dict.contains (Dict.set d k v) k = true.
Proof. unfold Dict.contains. now rewrite DictFacts.get_set_eq. Qed.

Lemma dict_set_nonempty {V : Type} (d : Dict.t V) k v : Dict.set d k v <> [].
Proof.
  destruct d as [|[k0 v0] d]; simpl; [discriminate|].
  destruct (String.eqb k k0); discriminate.
Qed.

Lemma dict_len_zero {V : Type} (d : Dict.t V) : Dict.len d = 0 <-> d = [].
Proof.
  unfold Dict.len. destruct d; simpl; split; intros X;
    try reflexivity; try discriminate; lia.
Qed.

(** X4. A query that is started and then completes leaves the collection
    exactly as it was before, with the order of the other queries; if the
    collection was empty, no dialog is held afterwards. *)
Theorem add_then_remove_restores_collection self query_id explanation response :
  wf self = true -> Dict.contains (_queries self) query_id = false ->
  exists self1 self2,
    _addQuerySlot query_id explanation response self = Some self1
    /\ _removeQuerySlot query_id self1 = Some self2
    /\ _queries self2 = _queries self
    /\ (_queries self = [] -> _progress_dialog self2 = None).
Proof.
  intros H C.
  destruct (addQuerySlot_total_wf self query_id explanation response H)
    as (s1 & A & W1).
  destruct (removeQuerySlot_total_wf s1 query_id W1) as (s2 & R & _).
  exists s1, s2. split; [exact A|]. split; [exact R|].
  assert (Q1 : _queries s1
               = Dict.set (_queries self) query_id
                   [("explanation", PyStr explanation); ("current", PyInt 0);
                    ("maximum", PyInt 0); ("response", PyReply response)]).
  { unfold _addQuerySlot in A. destruct (show_frame _ _ A) as (-> & _). reflexivity. }
  revert R. unfold _removeQuerySlot. simpl.
  rewrite Q1, dict_contains_set. simpl. rewrite dict_del_set_absent by exact C.
  destruct (Z.eqb_spec (Dict.len (_queries self)) 0) as [L|L].
  - intros [= <-]. set (s := set_queries _ _).
    destruct (hide_frame s) as (-> & _ & -> & _). auto.
  - intros S. destruct (show_frame _ _ S) as (-> & _). simpl. split; [reflexivity|].
    intros Em. apply dict_len_zero in Em. contradiction.
Qed.

Lemma add_then_remove_restores_collection_witness :
  wf one_query = true /\ Dict.contains (_queries one_query) "q2" = false /\
  exists self1 self2,
    _addQuerySlot "q2" "Saving" 8%nat one_query = Some self1
    /\ _removeQuerySlot "q2" self1 = Some self2
    /\ _queries self2 = _queries one_query
    /\ (_queries one_query = [] -> _progress_dialog self2 = None).
Proof.
  split; [vm_compute; reflexivity|]. split; [vm_compute; reflexivity|].
  apply (add_then_remove_restores_collection one_query "q2" "Saving" 8%nat);
    vm_compute; reflexivity.
Defined.

(** X5. Starting a query under an id that is already tracked replaces the
    record in place: the ids and their order, and so the number of tracked
    queries, are unchanged.  A new id goes to the end of the collection. *)
Theorem addQuerySlot_keeps_order self query_id explanation response :
  wf self = true ->
  exists self',
    _addQuerySlot query_id explanation response self = Some self'
    /\ (Dict.contains (_queries self) query_id = true ->
        Dict.keys (_queries self') = Dict.keys (_queries self)
        /\ Dict.len (_queries self') = Dict.len (_queries self))
    /\ (Dict.contains (_queries self) query_id = false ->
        Dict.keys (_queries self') = (Dict.keys (_queries self) ++ [query_id])%list
        /\ Dict.len (_queries self') = Dict.len (_queries self) + 1).
Proof.
  intros H.
  destruct (addQuerySlot_total_wf self query_id explanation response H)
    as (s1 & A & _).
  exists s1. split; [exact A|].
  unfold _addQuerySlot in A. destruct (show_frame _ _ A) as (-> & _). simpl.
  split; intros C.
  - split; [now apply DictFacts.keys_set_present|].
    now apply DictFacts.len_set_present.
  - pose proof (DictFacts.keys_set_absent (_queries self) query_id
                  [("explanation", PyStr explanation); ("current", PyInt 0);
                   ("maximum", PyInt 0); ("response", PyReply response)] C) as K.
    split; [exact K|].
    unfold Dict.len. rewrite <- (length_map fst), <- (length_map fst (_queries self)).
    fold (Dict.keys (_queries self)). unfold Dict.keys in K. rewrite K.
    rewrite length_app. simpl. unfold Dict.keys. lia.
Qed.

Lemma addQuerySlot_keeps_order_witness :
  wf two_queries = true /\
  exists self',
    _addQuerySlot "q1" "Again" 9%nat two_queries = Some self'
    /\ (Dict.contains (_queries two_queries) "q1" = true ->
        Dict.keys (_queries self') = Dict.keys (_queries two_queries)
        /\ Dict.len (_queries self') = Dict.len (_queries two_queries))
    /\ (Dict.contains (_queries two_queries) "q1" = false ->
        Dict.keys (_queries self')
          = (Dict.keys (_queries two_queries) ++ ["q1"])%list
        /\ Dict.len (_queries self') = Dict.len (_queries two_queries) + 1).
Proof.
  split; [vm_compute; reflexivity|].
  apply (addQuerySlot_keeps_order two_queries "q1" "Again" 9%nat).
  vm_compute; reflexivity.
Defined.

(** ** Frames of the events *)

Lemma abort_all_shape queries self self' :
  abort_all queries self = Some self' -> exists rs, self' = set_aborted rs self.
Proof.
  revert self. induction queries as [|q qs IH]; intros self; simpl.
  - intros [= <-]. exists (aborted self). now destruct self.
  - destruct (Dict.get q "response") as [[| |r]|]; simpl; try discriminate.
    intros A. destruct (IH _ A) as [rs ->]. now exists rs.
Qed.

Lemma cancelSlot_any_shape self self' :
  _cancelSlot self = Some self' -> exists rs, self' = set_aborted rs self.
Proof.
  unfold _cancelSlot. destruct (_allow_cancel_query self).
  - apply abort_all_shape.
  - intros [= <-]. exists (aborted self). now destruct self.
Qed.

(** What a slot run by the toolkit leaves alone. *)
Lemma run_slot_frame f self self' :
  run_slot f self = Some self' ->
  _queries self' = _queries self
  /\ _progress_dialog self' = _progress_dialog self
  /\ _finished_query_during_display self' = _finished_query_during_display self
  /\ _enable self' = _enable self.
Proof.
  destruct f; simpl.
  - intros C. destruct (cancelSlot_any_shape _ _ C) as [rs ->]. simpl. auto.
  - intros [= <-]. unfold _show_dialog.
    destruct (_progress_dialog self) eqn:P; [|rewrite P; auto].
    destruct (_enable self) eqn:En; simpl; rewrite ?P, ?En; auto.
Qed.

Lemma run_slots_frame fs self self' :
  run_slots fs self = Some self' ->
  _queries self' = _queries self
  /\ _progress_dialog self' = _progress_dialog self
  /\ _finished_query_during_display self' = _finished_query_during_display self
  /\ _enable self' = _enable self.
Proof.
  revert self. induction fs as [|f fs IH]; intros self; simpl.
  - intros [= <-]. auto.
  - destruct (run_slot f self) as [s1|] eqn:R; simpl; [|discriminate].
    intros X. destruct (IH _ X) as (-> & -> & -> & ->).
    now apply run_slot_frame in R.
Qed.

Lemma context_enter_finished kwargs self :
  _finished_query_during_display (snd (context_enter kwargs self))
  = _finished_query_during_display self.
Proof. destruct kwargs as [[md|] [en|] [cbt|] [acq|]]; reflexivity. Qed.

Lemma context_exit_finished kwargs locals self self' :
  context_exit kwargs locals self = Some self' ->
  _finished_query_during_display self' = _finished_query_during_display self.
Proof.
  unfold context_exit.
  destruct kwargs as [[md|] [en|] [cbt|] [acq|]];
    destruct locals as [[omd|] [oen|] [ocbt|] [oacq|]]; simpl;
    try discriminate; intros [= <-]; reflexivity.
Qed.

(** The events that are not slot calls of the collection keep the
    collection, the dialog reference and the counter. *)
Lemma handle_frame e self self' :
  handle e self = Some self' ->
  match e with
  | Ev_call Call_cancelSlot | Ev_user_cancel _ | Ev_timeout _
  | Ev_setAllowCancelQuery _ | Ev_setCancelButtonText _
  | Ev_context_enter _ | Ev_context_exit _ _ =>
      _queries self' = _queries self
      /\ _progress_dialog self' = _progress_dialog self
      /\ _finished_query_during_display self'
         = _finished_query_during_display self
  | _ => True
  end.
Proof.
  destruct e as [c|d|i|b|t|kwargs|kwargs locals]; simpl.
  - destruct c; auto. intros C.
    destruct (cancelSlot_any_shape _ _ C) as [rs ->]. auto.
  - unfold user_cancel. destruct (widget self d) as [w|]; simpl; [|discriminate].
    intros R. apply run_slots_frame in R as (-> & -> & -> & _). auto.
  - unfold timeout. destruct (nth_error (_stimer self) i) as [[ms f]|].
    + intros R. apply run_slot_frame in R as (-> & -> & -> & _). auto.
    + intros [= <-]. auto.
  - intros [= <-]. auto.
  - intros [= <-]. auto.
  - intros [= <-]. destruct (context_enter_frame kwargs self) as (-> & _ & ->).
    now rewrite context_enter_finished.
  - intros X. destruct (context_exit_frame _ _ _ _ X) as (-> & _ & ->).
    now rewrite (context_exit_finished _ _ _ _ X).
Qed.

Lemma show_holds_dialog self self' :
  show self = Some self' -> exists d, _progress_dialog self' = Some d.
Proof.
  intros S. destruct (show_shape _ _ S)
    as [(_ & f & _ & ->)|(d & w & f & P & _ & _ & _ & ->)]; simpl; eauto.
Qed.

(** ** The dialog is there while queries run *)

(** X6. For a controller that is driven through its signals only (no
    direct call of [show] or [hide]), [progress_dialog()] is None exactly
    when no query is tracked: the dialog exists from the first active query
    until the collection is empty again. *)
Theorem dialog_held_iff_queries_tracked self :
  signal_driven self ->
  (progress_dialog self = None <-> _queries self = []).
Proof.
  unfold progress_dialog.
  induction 1 as [md|self e self' _ IH F X]; [simpl; tauto|].
  destruct e as [c|d|i|b|t|kwargs|kwargs locals];
    try (apply handle_frame in X as (-> & -> & _); exact IH).
  destruct c; try discriminate; simpl in X.
  - unfold _addQuerySlot in X.
    destruct (show_holds_dialog _ _ X) as [d ->].
    destruct (show_frame _ _ X) as (-> & _). simpl.
    split; [discriminate|]. intros Em. now apply dict_set_nonempty in Em.
  - revert X. unfold _removeQuerySlot.
    set (s0 := set_finished_query_during_display _ self).
    set (s1 := if Dict.contains (_queries s0) query_id then _ else s0).
    destruct (Z.eqb_spec (Dict.len (_queries s1)) 0) as [L|L].
    + intros [= <-]. destruct (hide_frame s1) as (-> & _ & -> & _).
      apply dict_len_zero in L. tauto.
    + intros S. destruct (show_holds_dialog _ _ S) as [d ->].
      destruct (show_frame _ _ S) as (-> & _).
      split; [discriminate|]. intros Em. apply dict_len_zero in Em. contradiction.
  - revert X. unfold _progressSlot, Dict.contains.
    destruct (Dict.get (_queries self) query_id) as [q|]; simpl;
      [|intros [= <-]; exact IH].
    rewrite DictFacts.get_set_eq. simpl. intros S.
    destruct (show_holds_dialog _ _ S) as [d ->].
    destruct (show_frame _ _ S) as (-> & _). simpl.
    split; [discriminate|]. intros Em. now apply dict_set_nonempty in Em.
  - apply (handle_frame (Ev_call Call_cancelSlot)) in X as (-> & -> & _). exact IH.
Qed.

Lemma one_query_signal_driven : signal_driven one_query.
Proof.
  apply (driven_step (__init__ 1000)
           (Ev_call (Call_addQuerySlot "q1" "Loading" 7%nat))).
  - apply driven_init.
  - reflexivity.
  - vm_compute. reflexivity.
Qed.

Lemma dialog_held_iff_queries_tracked_witness :
  signal_driven one_query
  /\ (progress_dialog one_query = None <-> _queries one_query = []).
Proof.
  split; [exact one_query_signal_driven|].
  exact (dialog_held_iff_queries_tracked one_query one_query_signal_driven).
Defined.

(** ** Deleted dialogs *)























(** A query started after the dialog was hidden gets a new dialog; the
    deleted one is left alone. *)
Example deleted_dialog_left_alone :
  option_map (fun s => (_progress_dialog s, List.length (widgets s), widget s 0))
             (_addQuerySlot "q2" "Saving" 8%nat (hide one_query))
  = Some (Some 1%nat, 2%nat, Some (deleteLater (cancel one_query_dialog))).
Proof. vm_compute. reflexivity. Qed.

(** ** A controller that is switched off *)

Lemma nnv_trans s1 s2 s3 :
  no_new_visible s1 s2 -> no_new_visible s2 s3 -> no_new_visible s1 s3.
Proof.
  intros A B d w3 W3 V3. destruct (B d w3 W3 V3) as (w2 & W2 & V2).
  exact (A d w2 W2 V2).
Qed.

Lemma nnv_frame self self' : widgets self' = widgets self -> no_new_visible self self'.
Proof. intros W d w'. unfold widget. rewrite W. eauto. Qed.

Lemma nnv_on_dialog d f self :
  (forall w, visible (f w) = true -> visible w = true) ->
  no_new_visible self (on_dialog d f self).
Proof.
  intros F d' w'. destruct (Nat.eq_dec d d') as [<-|Ne].
  - rewrite on_dialog_widget_eq.
    destruct (widget self d) as [w|]; simpl; [|discriminate].
    intros [= <-] V. exists w. split; [reflexivity | now apply F].
  - rewrite on_dialog_widget_neq by exact Ne. eauto.
Qed.

Lemma display_only_visible f :
  display_only f -> forall w, visible (f w) = true -> visible w = true.
Proof. intros F w. now destruct (F w) as (_ & _ & -> & _). Qed.

Lemma nnv_show self self' : show self = Some self' -> no_new_visible self self'.
Proof.
  intros S.
  destruct (show_shape _ _ S) as [(_ & f & F & ->)|(d & w & f & _ & _ & _ & F & ->)].
  - apply (nnv_trans _ (snd (show_create self))).
    + intros d w. unfold widget. simpl. intros W V.
      destruct (Nat.lt_ge_cases d (List.length (widgets self))) as [L|L].
      * rewrite nth_error_app1 in W by exact L. eauto.
      * rewrite nth_error_app2 in W by exact L.
        destruct (d - List.length (widgets self))%nat as [|k]; simpl in W.
        -- injection W as <-. destruct (0 <? _); discriminate.
        -- destruct k; discriminate.
    + apply (nnv_trans _ (on_dialog (List.length (widgets self)) f
                            (snd (show_create self)))).
      * apply nnv_on_dialog, display_only_visible, F.
      * apply nnv_frame. reflexivity.
  - apply nnv_on_dialog, display_only_visible, F.
Qed.

Lemma nnv_hide self : no_new_visible self (hide self).
Proof.
  unfold hide. destruct (_progress_dialog self) as [d|]; [|apply nnv_frame; reflexivity].
  rewrite on_dialog_compose.
  apply (nnv_trans _ (set_progress_dialog None self));
    [apply nnv_frame; reflexivity|].
  apply nnv_on_dialog. intros w. simpl. discriminate.
Qed.

Lemma nnv_run_slot f self self' :
  _enable self = false -> run_slot f self = Some self' -> no_new_visible self self'.
Proof.
  intros En. destruct f; simpl.
  - intros C. destruct (cancelSlot_any_shape _ _ C) as [rs ->].
    apply nnv_frame. reflexivity.
  - intros [= <-]. unfold _show_dialog. rewrite En.
    destruct (_progress_dialog self); apply nnv_frame; reflexivity.
Qed.

Lemma nnv_run_slots fs self self' :
  _enable self = false -> run_slots fs self = Some self' -> no_new_visible self self'.
Proof.
  revert self. induction fs as [|f fs IH]; intros self En; simpl.
  - intros [= <-]. apply nnv_frame. reflexivity.
  - destruct (run_slot f self) as [s1|] eqn:R; simpl; [|discriminate].
    intros X. apply (nnv_trans _ s1); [eapply nnv_run_slot; eauto|].
    apply IH; [|exact X].
    apply run_slot_frame in R as (_ & _ & _ & ->). exact En.
Qed.

(** X8. While [_enable] is False no event makes a dialog visible: whatever
    happens to the controller (a slot, [show], [hide], the user's cancel, a
    single shot, a change of settings), every dialog that is visible
    afterwards was visible before. *)
Theorem disabled_never_shows e self self' :
  _enable self = false -> handle e self = Some self' ->
  forall d w',
    widget self' d = Some w' -> visible w' = true ->
    exists w, widget self d = Some w /\ visible w = true.
Proof.
  intros En X. change (no_new_visible self self'). revert X.
  destruct e as [c|d|i|b|t|kwargs|kwargs locals]; simpl.
  - destruct c; simpl.
    + unfold _addQuerySlot. intros S.
      apply (nnv_trans _ _ _ (nnv_frame self _ eq_refl) (nnv_show _ _ S)).
    + unfold _removeQuerySlot.
      set (s0 := set_finished_query_during_display _ self).
      set (s1 := if Dict.contains (_queries s0) query_id then _ else s0).
      assert (W1 : widgets s1 = widgets self).
      { unfold s1. destruct (Dict.contains _ _); reflexivity. }
      destruct (Dict.len (_queries s1) =? 0).
      * intros [= <-]. apply (nnv_trans _ s1); [now apply nnv_frame | apply nnv_hide].
      * intros S. apply (nnv_trans _ s1); [now apply nnv_frame | now apply nnv_show].
    + unfold _progressSlot, Dict.contains.
      destruct (Dict.get (_queries self) query_id) as [q|]; simpl;
        [|intros [= <-]; apply nnv_frame; reflexivity].
      rewrite DictFacts.get_set_eq. simpl. intros S.
      apply (nnv_trans _ _ _ (nnv_frame self _ eq_refl) (nnv_show _ _ S)).
    + apply (nnv_run_slot Slot_cancelSlot). exact En.
    + apply nnv_show.
    + intros [= <-]. apply nnv_hide.
  - unfold user_cancel. destruct (widget self d) as [w|]; simpl; [|discriminate].
    intros R. apply (nnv_trans _ (on_dialog d cancel self)).
    + apply nnv_on_dialog. intros w0. simpl. discriminate.
    + apply (nnv_run_slots (canceled w)); [exact En | exact R].
  - unfold timeout. destruct (nth_error (_stimer self) i) as [[ms f]|].
    + intros R. apply (nnv_trans _ (set_stimer (remove_at (_stimer self) i) self)).
      * apply nnv_frame. reflexivity.
      * apply (nnv_run_slot f); [exact En | exact R].
    + intros [= <-]. apply nnv_frame. reflexivity.
  - intros [= <-]. apply nnv_frame. reflexivity.
  - intros [= <-]. apply nnv_frame. reflexivity.
  - intros [= <-]. apply nnv_frame.
    now destruct (context_enter_frame kwargs self) as (_ & -> & _).
  - intros X. apply nnv_frame.
    now destruct (context_exit_frame _ _ _ _ X) as (_ & -> & _).
Qed.

Lemma disabled_never_shows_witness :
  _enable (set_enable false one_query) = false
  /\ handle (Ev_timeout 0) (set_enable false one_query)
     = Some (set_stimer [] (set_enable false one_query))
  /\ forall d w',
       widget (set_stimer [] (set_enable false one_query)) d = Some w' ->
       visible w' = true ->
       exists w, widget (set_enable false one_query) d = Some w /\ visible w = true.
Proof.
  split; [reflexivity|]. split; [vm_compute; reflexivity|].
  apply (disabled_never_shows (Ev_timeout 0) (set_enable false one_query));
    [reflexivity | vm_compute; reflexivity].
Defined.

Example enabled_single_shot_shows :
  option_map (fun s => option_map visible (widget s 0)) (handle (Ev_timeout 0) one_query)
  = Some (Some true).
Proof. vm_compute. reflexivity. Qed.

(** ** Progress on the dialog *)

Lemma show_existing_aggregate self d w :
  data_model self = true ->
  _progress_dialog self = Some d -> widget self d = Some w -> wasCanceled w = false ->
  1 < Dict.len (_queries self) + _finished_query_during_display self ->
  exists self' w',
    show self = Some self' /\ _progress_dialog self' = Some d
    /\ widget self' d = Some w'
    /\ maximum w' = Dict.len (_queries self) + _finished_query_during_display self
    /\ value w' = Some (_finished_query_during_display self).
Proof.
  intros D P W C Many. rewrite (show_existing d w) by assumption.
  unfold show_update. apply Z.ltb_lt in Many. rewrite Many. simpl.
  set (s1 := on_dialog d _ (on_dialog d _ self)).
  destruct (show_label_total d s1 D) as [s2 L]. rewrite L.
  destruct (show_label_on_dialog _ _ _ L) as (g & _ & -> & G).
  eexists _, _. split; [reflexivity|]. split; [exact P|].
  unfold s1. rewrite !on_dialog_widget_eq, W. simpl. split; [reflexivity|].
  destruct (G (setValue (_finished_query_during_display self)
                 (setMaximum (Dict.len (_queries self)
                              + _finished_query_during_display self) w))) as [-> ->].
  simpl. auto.
Qed.

Lemma show_existing_single self d w q m c :
  data_model self = true ->
  _progress_dialog self = Some d -> widget self d = Some w -> wasCanceled w = false ->
  Dict.len (_queries self) = 1 -> _finished_query_during_display self <= 0 ->
  first_query self = Some q ->
  Dict.get q "maximum" = Some (PyInt m) -> Dict.get q "current" = Some (PyInt c) ->
  exists self' w',
    show self = Some self' /\ _progress_dialog self' = Some d
    /\ widget self' d = Some w' /\ maximum w' = m /\ value w' = Some c.
Proof.
  intros D P W C One Fin Q M Cu. rewrite (show_existing d w) by assumption.
  unfold show_update.
  assert (Few : (1 <? Dict.len (_queries self)
                      + _finished_query_during_display self) = false)
    by (apply Z.ltb_ge; lia).
  rewrite Few, One. simpl. rewrite Q. simpl. rewrite M. simpl. rewrite Cu. simpl.
  set (s1 := on_dialog d _ (on_dialog d _ self)).
  destruct (show_label_total d s1 D) as [s2 L]. rewrite L.
  destruct (show_label_on_dialog _ _ _ L) as (g & _ & -> & G).
  eexists _, _. split; [reflexivity|]. split; [exact P|].
  unfold s1. rewrite !on_dialog_widget_eq, W. simpl. split; [reflexivity|].
  destruct (G (setValue c (setMaximum m w))) as [-> ->]. simpl. auto.
Qed.

Lemma finished_handle e self self' :
  handle e self = Some self' ->
  0 <= _finished_query_during_display self ->
  0 <= _finished_query_during_display self'.
Proof.
  intros X N.
  assert (Show : forall s s', show s = Some s' ->
            0 <= _finished_query_during_display s ->
            0 <= _finished_query_during_display s').
  { intros s s' S Ns. destruct (show_shape _ _ S)
      as [(_ & f & _ & ->)|(d & w & f & _ & _ & _ & _ & ->)]; simpl; [lia | exact Ns]. }
  destruct e as [c|d|i|b|t|kwargs|kwargs locals];
    try (apply handle_frame in X as (_ & _ & ->); exact N).
  destruct c; simpl in X.
  - unfold _addQuerySlot in X. eapply Show; [exact X | exact N].
  - revert X. unfold _removeQuerySlot.
    set (s0 := set_finished_query_during_display _ self).
    set (s1 := if Dict.contains (_queries s0) query_id then _ else s0).
    assert (F1 : _finished_query_during_display s1
                 = _finished_query_during_display self + 1).
    { unfold s1. destruct (Dict.contains _ _); reflexivity. }
    destruct (Dict.len (_queries s1) =? 0).
    + intros [= <-]. destruct (hide_frame s1) as (_ & -> & _). lia.
    + intros S. eapply Show; [exact S | lia].
  - revert X. unfold _progressSlot, Dict.contains.
    destruct (Dict.get (_queries self) query_id) as [q|]; simpl;
      [|intros [= <-]; exact N].
    rewrite DictFacts.get_set_eq. simpl. intros S. eapply Show; [exact S | exact N].
  - apply (handle_frame (Ev_call Call_cancelSlot)) in X as (_ & _ & ->). exact N.
  - eapply Show; eauto.
  - injection X as <-. destruct (hide_frame self) as (_ & -> & _). exact N.
Qed.

Lemma reachable_finished self :
  reachable self -> 0 <= _finished_query_during_display self.
Proof.
  induction 1 as [md|self e self' _ IH X]; [simpl; lia|].
  eapply finished_handle; eauto.
Qed.

(** A dialog is held over an empty collection only right after a direct
    [show]: then nothing has finished during its display. *)
Lemma idle_handle e self self' :
  handle e self = Some self' ->
  (_queries self = [] -> _progress_dialog self <> None ->
   _finished_query_during_display self = 0) ->
  _queries self' = [] -> _progress_dialog self' <> None ->
  _finished_query_during_display self' = 0.
Proof.
  intros X I.
  assert (Show : forall s s', show s = Some s' ->
            (_queries s = [] -> _progress_dialog s <> None ->
             _finished_query_during_display s = 0) ->
            _queries s' = [] -> _progress_dialog s' <> None ->
            _finished_query_during_display s' = 0).
  { intros s s' S Is. destruct (show_shape _ _ S)
      as [(_ & f & _ & ->)|(d & w & f & P & _ & _ & _ & ->)]; simpl.
    - reflexivity.
    - intros Q _. apply Is; [exact Q | congruence]. }
  destruct e as [c|d|i|b|t|kwargs|kwargs locals];
    try (apply handle_frame in X as (-> & -> & ->); exact I).
  destruct c; simpl in X.
  - unfold _addQuerySlot in X. destruct (show_frame _ _ X) as (-> & _). simpl.
    intros Em. now apply dict_set_nonempty in Em.
  - revert X. unfold _removeQuerySlot.
    set (s0 := set_finished_query_during_display _ self).
    set (s1 := if Dict.contains (_queries s0) query_id then _ else s0).
    destruct (Z.eqb_spec (Dict.len (_queries s1)) 0) as [L|L].
    + intros [= <-]. destruct (hide_frame s1) as (_ & _ & -> & _). congruence.
    + intros S. destruct (show_frame _ _ S) as (-> & _).
      intros Em. apply dict_len_zero in Em. contradiction.
  - revert X. unfold _progressSlot, Dict.contains.
    destruct (Dict.get (_queries self) query_id) as [q|]; simpl;
      [|intros [= <-]; exact I].
    rewrite DictFacts.get_set_eq. simpl. intros S.
    destruct (show_frame _ _ S) as (-> & _). simpl.
    intros Em. now apply dict_set_nonempty in Em.
  - apply (handle_frame (Ev_call Call_cancelSlot)) in X as (-> & -> & ->). exact I.
  - eapply Show; eauto.
  - injection X as <-. destruct (hide_frame self) as (_ & _ & -> & _). congruence.
Qed.

Lemma reachable_idle self :
  reachable self ->
  _queries self = [] -> _progress_dialog self <> None ->
  _finished_query_during_display self = 0.
Proof.
  induction 1 as [md|self e self' _ IH X]; [reflexivity|].
  eapply idle_handle; eauto.
Qed.

(** X9. In every state a controller gets into the finished-query counter
    is not negative; and whenever [show] puts the aggregated progress on
    the dialog in use (more than one query active or finished), the value
    is at least 0 and strictly below the maximum: the bar never shows
    complete while the dialog is held, since then at least one query is
    still tracked. *)
Theorem aggregate_progress_within_range self :
  reachable self ->
  0 <= _finished_query_during_display self
  /\ forall d w,
       _progress_dialog self = Some d -> widget self d = Some w ->
       wasCanceled w = false ->
       1 < Dict.len (_queries self) + _finished_query_during_display self ->
       _queries self <> []
       /\ exists self' w' v,
            show self = Some self' /\ widget self' d = Some w'
            /\ value w' = Some v
            /\ v = _finished_query_during_display self
            /\ maximum w'
               = Dict.len (_queries self) + _finished_query_during_display self
            /\ 0 <= v < maximum w'.
Proof.
  intros R.
  pose proof (reachable_finished _ R) as N. split; [exact N|].
  intros d w P W C Many.
  pose proof (reachable_good _ R) as [H _]. apply wf_split in H as [D _].
  assert (Ne : _queries self <> []).
  { intros Em. pose proof (reachable_idle _ R Em) as Z.
    rewrite P in Z. rewrite Em in Many. unfold Dict.len in Many. simpl in Many.
    rewrite Z in Many by discriminate. lia. }
  split; [exact Ne|].
  destruct (show_existing_aggregate self d w D P W C Many)
    as (s' & w' & S & _ & W' & Mx & Va).
  exists s', w', (_finished_query_during_display self).
  split; [exact S|]. split; [exact W'|]. split; [exact Va|].
  split; [reflexivity|]. split; [exact Mx|].
  rewrite Mx.
  assert (0 < Dict.len (_queries self)).
  { rewrite <- dict_len_zero in Ne. unfold Dict.len in *. lia. }
  lia.
Qed.

Lemma two_queries_reachable : reachable two_queries.
Proof.
  apply (reach_step
           (match _progressSlot "q1" 5 10 one_query with
            | Some s => s | None => one_query end)
           (Ev_call (Call_addQuerySlot "q2" "Saving" 8%nat)));
    [|vm_compute; reflexivity].
  apply (reach_step one_query (Ev_call (Call_progressSlot "q1" 5 10)));
    [apply one_query_reachable | vm_compute; reflexivity].
Qed.

Lemma aggregate_progress_within_range_witness :
  reachable two_queries
  /\ 0 <= _finished_query_during_display two_queries
  /\ _progress_dialog two_queries = Some 0%nat
  /\ widget two_queries 0 = Some two_queries_dialog
  /\ wasCanceled two_queries_dialog = false
  /\ 1 < Dict.len (_queries two_queries)
         + _finished_query_during_display two_queries
  /\ _queries two_queries <> []
  /\ exists self' w' v,
       show two_queries = Some self' /\ widget self' 0 = Some w'
       /\ value w' = Some v
       /\ v = _finished_query_during_display two_queries
       /\ maximum w'
          = Dict.len (_queries two_queries)
            + _finished_query_during_display two_queries
       /\ 0 <= v < maximum w'.
Proof.
  destruct (aggregate_progress_within_range two_queries two_queries_reachable)
    as [N A].
  split; [exact two_queries_reachable|]. split; [exact N|].
  split; [vm_compute; reflexivity|]. split; [vm_compute; reflexivity|].
  split; [reflexivity|]. split; [vm_compute; reflexivity|].
  apply (A 0%nat two_queries_dialog); vm_compute; reflexivity.
Defined.

(** With two queries tracked, one of them completed: 1 of 2. *)
Example aggregate_after_completion :
  option_map (fun s => option_map (fun w => (value w, maximum w)) (widget s 0))
             (_removeQuerySlot "q1" two_queries)
  = Some (Some (Some 1, 2)).
Proof. vm_compute. reflexivity. Qed.

Lemma dict_get_notin {V : Type} (d : Dict.t V) k :
  ~ In k (Dict.keys d) -> Dict.contains d k = false.
Proof.
  unfold Dict.contains. induction d as [|[k0 v0] d IH]; simpl; [reflexivity|].
  intros N. destruct (String.eqb_spec k k0) as [->|Ne]; [tauto|].
  apply IH. tauto.
Qed.

Lemma dict_length_del {V : Type} (d : Dict.t V) k :
  NoDup (Dict.keys d) -> Dict.contains d k = true ->
  S (List.length (Dict.del d k)) = List.length d.
Proof.
  induction d as [|[k0 v0] d IH]; intros U C; [discriminate|].
  inversion U as [|? ? NI ND]; subst. unfold Dict.contains in C.
  unfold Dict.del. cbn [filter fst Dict.get] in *.
  destruct (String.eqb_spec k k0) as [->|Ne]; cbn [negb List.length].
  - fold (Dict.del d k0).
    now rewrite (DictFacts.del_absent d k0 (dict_get_notin d k0 NI)).
  - fold (Dict.del d k). f_equal. apply IH; [exact ND | exact C].
Qed.

Lemma dict_len_del {V : Type} (d : Dict.t V) k :
  unique_keys (Dict.keys d) = true -> Dict.contains d k = true ->
  Dict.len (Dict.del d k) = Dict.len d - 1.
Proof.
  rewrite DictFacts.unique_keys_NoDup. intros U C.
  pose proof (dict_length_del d k U C) as L. unfold Dict.len. lia.
Qed.

(** X10. While a single query is tracked and none has finished during the
    display, a progress callback for it puts its own progress on the
    dialog: the dialog's maximum and value are the maximum and the current
    value of the callback. *)
Theorem progress_of_single_query_displayed self query_id current maximum_ d w :
  wf self = true ->
  Dict.contains (_queries self) query_id = true ->
  Dict.len (_queries self) = 1 -> _finished_query_during_display self <= 0 ->
  _progress_dialog self = Some d -> widget self d = Some w -> wasCanceled w = false ->
  exists self' w',
    _progressSlot query_id current maximum_ self = Some self'
    /\ _progress_dialog self' = Some d /\ widget self' d = Some w'
    /\ maximum w' = maximum_ /\ value w' = Some current.
Proof.
  intros H C One Fin P W Cw. apply wf_split in H as [D E].
  unfold _progressSlot. rewrite C. unfold Dict.contains in C.
  destruct (Dict.get (_queries self) query_id) as [q|] eqn:G; [|discriminate].
  simpl. rewrite DictFacts.get_set_eq. simpl.
  destruct (is_query_inv q (data_model_query _ _ _ D G)) as (e & c & m & r & ->).
  simpl. set (q' := [("explanation", PyStr e); ("current", PyInt current);
                     ("maximum", PyInt maximum_); ("response", PyReply r)]).
  set (s2 := set_queries _ _).
  assert (Q2 : _queries s2 = [(query_id, q')]).
  { unfold s2. simpl. unfold Dict.len in One.
    destruct (_queries self) as [|[k0 q0] [|]]; simpl in *; try lia.
    destruct (String.eqb query_id k0) eqn:K; [|discriminate].
    simpl. rewrite K. simpl. apply String.eqb_eq in K. now subst. }
  apply (show_existing_single s2 d w q' maximum_ current); try assumption;
    try reflexivity.
  - unfold s2. apply data_model_set; [|reflexivity].
    apply (data_model_set self query_id); [exact D | reflexivity].
  - rewrite Q2. reflexivity.
  - unfold first_query. rewrite Q2. reflexivity.
Qed.

Lemma progress_of_single_query_displayed_witness :
  wf one_query = true
  /\ Dict.contains (_queries one_query) "q1" = true
  /\ Dict.len (_queries one_query) = 1
  /\ _finished_query_during_display one_query <= 0
  /\ _progress_dialog one_query = Some 0%nat
  /\ exists self' w',
       _progressSlot "q1" 5 10 one_query = Some self'
       /\ _progress_dialog self' = Some 0%nat /\ widget self' 0 = Some w'
       /\ maximum w' = 10 /\ value w' = Some 5.
Proof.
  split; [vm_compute; reflexivity|]. split; [vm_compute; reflexivity|].
  split; [vm_compute; reflexivity|]. split; [vm_compute; discriminate|].
  split; [vm_compute; reflexivity|].
  eapply (progress_of_single_query_displayed one_query "q1" 5 10 0);
    try (vm_compute; reflexivity). vm_compute. discriminate.
Defined.

(** X11. When a tracked query completes while others remain and the
    dialog is in use, the dialog's maximum stays the number of active plus
    finished queries and its value goes up by one. *)
Theorem completion_advances_progress self query_id d w :
  wf self = true ->
  Dict.contains (_queries self) query_id = true ->
  2 <= Dict.len (_queries self) -> 0 <= _finished_query_during_display self ->
  _progress_dialog self = Some d -> widget self d = Some w -> wasCanceled w = false ->
  exists self' w',
    _removeQuerySlot query_id self = Some self'
    /\ _progress_dialog self' = Some d /\ widget self' d = Some w'
    /\ maximum w'
       = Dict.len (_queries self) + _finished_query_during_display self
    /\ value w' = Some (_finished_query_during_display self + 1)
    /\ Dict.len (_queries self') = Dict.len (_queries self) - 1.
Proof.
  intros H C Two Fin P W Cw. apply wf_split in H as [D E].
  unfold _removeQuerySlot. simpl. rewrite C. simpl.
  assert (U : unique_keys (Dict.keys (_queries self)) = true).
  { unfold data_model in D. now apply andb_true_iff in D as [U _]. }
  pose proof (dict_len_del _ _ U C) as Ld. rewrite Ld.
  destruct (Z.eqb_spec (Dict.len (_queries self) - 1) 0) as [Z0|_]; [lia|].
  set (s1 := set_queries _ _).
  assert (D1 : data_model s1 = true).
  { apply (data_model_del
             (set_finished_query_during_display
                (_finished_query_during_display self + 1) self)). exact D. }
  destruct (show_existing_aggregate s1 d w D1 P W Cw) as (s' & w' & S & P' & W' & Mx & Va).
  { unfold s1. simpl. rewrite Ld. lia. }
  exists s', w'. split; [exact S|]. split; [exact P'|]. split; [exact W'|].
  unfold s1 in Mx, Va. simpl in Mx, Va. rewrite Ld in Mx.
  split; [rewrite Mx; lia|]. split; [exact Va|].
  destruct (show_frame _ _ S) as (-> & _). unfold s1. simpl. exact Ld.
Qed.

Lemma completion_advances_progress_witness :
  wf two_queries = true
  /\ Dict.contains (_queries two_queries) "q1" = true
  /\ 2 <= Dict.len (_queries two_queries)
  /\ 0 <= _finished_query_during_display two_queries
  /\ exists self' w',
       _removeQuerySlot "q1" two_queries = Some self'
       /\ _progress_dialog self' = Some 0%nat /\ widget self' 0 = Some w'
       /\ maximum w'
          = Dict.len (_queries two_queries)
            + _finished_query_during_display two_queries
       /\ value w' = Some (_finished_query_during_display two_queries + 1)
       /\ Dict.len (_queries self') = Dict.len (_queries two_queries) - 1.
Proof.
  split; [vm_compute; reflexivity|]. split; [vm_compute; reflexivity|].
  split; [vm_compute; discriminate|]. split; [vm_compute; discriminate|].
  eapply (completion_advances_progress two_queries "q1" 0);
    try (vm_compute; reflexivity); vm_compute; discriminate.
Defined.

(** ** Settings and the dialog in use *)

(** X12. The cancel button text and the minimum duration are applied to a
    dialog when it is constructed only: whatever they are changed to,
    [show] on a dialog in use leaves its cancel button, its minimum
    duration and its connections as they are and starts no single shot. *)
Theorem settings_apply_to_new_dialogs_only self d w t ms self' :
  _progress_dialog self = Some d -> widget self d = Some w -> wasCanceled w = false ->
  show (set_minimum_duration ms (setCancelButtonText_ t self)) = Some self' ->
  exists w',
    widget self' d = Some w'
    /\ cancelButton w' = cancelButton w
    /\ minimumDuration w' = minimumDuration w
    /\ canceled w' = canceled w
    /\ _stimer self' = _stimer self.
Proof.
  intros P W C S.
  destruct (show_shape _ _ S)
    as [(N & _)|(d' & w0 & f & P' & W' & _ & F & ->)].
  - unfold no_usable_dialog in N. simpl in N. rewrite P in N.
    change (widget (set_minimum_duration ms (setCancelButtonText_ t self)) d)
      with (widget self d) in N.
    rewrite W in N. simpl in N. congruence.
  - simpl in P'. rewrite P in P'. injection P' as <-.
    change (widget (set_minimum_duration ms (setCancelButtonText_ t self)) d)
      with (widget self d) in W'.
    rewrite W in W'. injection W' as <-.
    exists (f w). rewrite on_dialog_widget_eq.
    change (widget (set_minimum_duration ms (setCancelButtonText_ t self)) d)
      with (widget self d).
    rewrite W. simpl. split; [reflexivity|].
    destruct (F w) as (_ & _ & _ & Ca & Cb & Md). auto.
Qed.

Lemma settings_apply_to_new_dialogs_only_witness :
  _progress_dialog one_query = Some 0%nat
  /\ widget one_query 0 = Some one_query_dialog
  /\ wasCanceled one_query_dialog = false
  /\ show (set_minimum_duration 0 (setCancelButtonText_ "Stop" one_query))
     = Some (on_dialog 0 (setLabelText "Loading")
               (on_dialog 0 (setValue 0)
                  (on_dialog 0 (setMaximum 0)
                     (set_minimum_duration 0
                        (setCancelButtonText_ "Stop" one_query)))))
  /\ exists w',
       widget (on_dialog 0 (setLabelText "Loading")
                 (on_dialog 0 (setValue 0)
                    (on_dialog 0 (setMaximum 0)
                       (set_minimum_duration 0
                          (setCancelButtonText_ "Stop" one_query))))) 0 = Some w'
       /\ cancelButton w' = cancelButton one_query_dialog
       /\ minimumDuration w' = minimumDuration one_query_dialog
       /\ canceled w' = canceled one_query_dialog
       /\ _stimer (on_dialog 0 (setLabelText "Loading")
                     (on_dialog 0 (setValue 0)
                        (on_dialog 0 (setMaximum 0)
                           (set_minimum_duration 0
                              (setCancelButtonText_ "Stop" one_query)))))
          = _stimer one_query.
Proof.
  split; [vm_compute; reflexivity|]. split; [vm_compute; reflexivity|].
  split; [reflexivity|]. split; [vm_compute; reflexivity|].
  apply (settings_apply_to_new_dialogs_only one_query 0 one_query_dialog "Stop" 0);
    vm_compute; reflexivity.
Defined.

(** ** Cancellation keeps the queries *)

Lemma tracked_replies_length self :
  data_model self = true ->
  List.length (tracked_replies self) = List.length (_queries self).
Proof.
  unfold data_model, tracked_replies, Dict.values. intros D.
  apply andb_true_iff in D as [_ F]. revert F.
  induction (_queries self) as [|[k q] l IH]; simpl; [reflexivity|].
  intros F. apply andb_true_iff in F as [Q F].
  destruct (is_query_inv q Q) as (e & c & m & r & ->).
  unfold response_of. simpl. f_equal. now apply IH.
Qed.

(** X13. A cancellation that is allowed calls abort() as many times as
    queries are tracked, and, allowed or not, [_cancelSlot] removes no query
    and keeps the dialog and the counter: the queries stay tracked until
    their completion callbacks arrive. *)
Theorem cancel_keeps_queries_tracked self :
  data_model self = true ->
  exists self',
    _cancelSlot self = Some self'
    /\ _queries self' = _queries self
    /\ _progress_dialog self' = _progress_dialog self
    /\ widgets self' = widgets self
    /\ _finished_query_during_display self' = _finished_query_during_display self
    /\ (_allow_cancel_query self = true ->
        List.length (aborted self')
        = (List.length (aborted self) + List.length (_queries self))%nat).
Proof.
  intros D. unfold _cancelSlot. destruct (_allow_cancel_query self) eqn:A.
  - pose proof D as D0. unfold data_model in D. apply andb_true_iff in D as [_ F].
    rewrite (abort_all_spec _ self F). eexists. split; [reflexivity|]. simpl.
    repeat (split; [reflexivity|]). intros _.
    rewrite length_app. f_equal. now apply tracked_replies_length.
  - exists self. repeat (split; [reflexivity|]). discriminate.
Qed.

Lemma cancel_keeps_queries_tracked_witness :
  data_model (setAllowCancelQuery true two_queries) = true /\
  exists self',
    _cancelSlot (setAllowCancelQuery true two_queries) = Some self'
    /\ _queries self' = _queries (setAllowCancelQuery true two_queries)
    /\ _progress_dialog self'
       = _progress_dialog (setAllowCancelQuery true two_queries)
    /\ widgets self' = widgets (setAllowCancelQuery true two_queries)
    /\ _finished_query_during_display self'
       = _finished_query_during_display (setAllowCancelQuery true two_queries)
    /\ (_allow_cancel_query (setAllowCancelQuery true two_queries) = true ->
        List.length (aborted self')
        = (List.length (aborted (setAllowCancelQuery true two_queries))
           + List.length (_queries (setAllowCancelQuery true two_queries)))%nat).
Proof.
  split; [vm_compute; reflexivity|].
  apply (cancel_keeps_queries_tracked (setAllowCancelQuery true two_queries)).
  vm_compute; reflexivity.
Defined.

(** ** Nested contexts *)

(** X14. Contexts nest: when a block runs inside two contexts and completes
    normally, every setting whose option was passed to the outer or to the
    inner context has afterwards the value it had before the outer one was
    entered. *)
Theorem nested_contexts_restore outer inner block self self1 :
  block (snd (context_enter inner (snd (context_enter outer self)))) = Some self1 ->
  exists self',
    context outer (context inner block) self = Some self'
    /\ (min_duration outer <> None \/ min_duration inner <> None ->
        _minimum_duration self' = _minimum_duration self)
    /\ (enable outer <> None \/ enable inner <> None ->
        _enable self' = _enable self)
    /\ (cancel_button_text outer <> None \/ cancel_button_text inner <> None ->
        _cancel_button_text self' = _cancel_button_text self)
    /\ (allow_cancel_query outer <> None \/ allow_cancel_query inner <> None ->
        _allow_cancel_query self' = _allow_cancel_query self).
Proof.
  destruct outer as [[md1|] [en1|] [cbt1|] [acq1|]];
    destruct inner as [[md2|] [en2|] [cbt2|] [acq2|]];
    unfold context; simpl; intros B; rewrite B; simpl;
    eexists; (split; [reflexivity|]); simpl;
    repeat split; intros [X|X]; try reflexivity; congruence.
Qed.

Lemma nested_contexts_restore_witness :
  sample_block
    (snd (context_enter (mkKwargs None (Some true) None (Some true))
            (snd (context_enter sample_kwargs one_query))))
  = Some (set_enable false
            (snd (context_enter (mkKwargs None (Some true) None (Some true))
                    (snd (context_enter sample_kwargs one_query)))))
  /\ exists self',
       context sample_kwargs
         (context (mkKwargs None (Some true) None (Some true)) sample_block)
         one_query = Some self'
       /\ (min_duration sample_kwargs <> None
           \/ min_duration (mkKwargs None (Some true) None (Some true)) <> None ->
           _minimum_duration self' = _minimum_duration one_query)
       /\ (enable sample_kwargs <> None
           \/ enable (mkKwargs None (Some true) None (Some true)) <> None ->
           _enable self' = _enable one_query)
       /\ (cancel_button_text sample_kwargs <> None
           \/ cancel_button_text (mkKwargs None (Some true) None (Some true)) <> None ->
           _cancel_button_text self' = _cancel_button_text one_query)
       /\ (allow_cancel_query sample_kwargs <> None
           \/ allow_cancel_query (mkKwargs None (Some true) None (Some true)) <> None ->
           _allow_cancel_query self' = _allow_cancel_query one_query).
Proof.
  split; [reflexivity|].
  eapply (nested_contexts_restore sample_kwargs
            (mkKwargs None (Some true) None (Some true)) sample_block one_query).
  reflexivity.
Defined.

(** ** A single shot that comes too late *)

(** X15. A single shot that fires when the controller holds no dialog (the
    queries were over before the minimum duration) shows nothing: no
    dialog is touched and none is held afterwards. *)
Theorem late_single_shot_shows_nothing self i self' :
  _progress_dialog self = None -> timeout i self = Some self' ->
  widgets self' = widgets self /\ _progress_dialog self' = None
  /\ _queries self' = _queries self.
Proof.
  intros P. unfold timeout.
  destruct (nth_error (_stimer self) i) as [[ms f]|]; [|intros [= <-]; auto].
  destruct f; simpl.
  - intros C. destruct (cancelSlot_any_shape _ _ C) as [rs ->]. simpl. auto.
  - unfold _show_dialog. simpl. rewrite P. intros [= <-]. simpl. auto.
Qed.

Lemma late_single_shot_shows_nothing_witness :
  _progress_dialog (hide one_query) = None
  /\ timeout 0 (hide one_query) = Some (set_stimer [] (hide one_query))
  /\ widgets (set_stimer [] (hide one_query)) = widgets (hide one_query)
  /\ _progress_dialog (set_stimer [] (hide one_query)) = None
  /\ _queries (set_stimer [] (hide one_query)) = _queries (hide one_query).
Proof.
  split; [vm_compute; reflexivity|]. split; [vm_compute; reflexivity|].
  apply (late_single_shot_shows_nothing (hide one_query) 0);
    vm_compute; reflexivity.
Defined.
